(** * User Management API: a shallow embedding of [app.py], [db.py], [init_db.py]

    The program is a Flask application over one SQLite table,
    [users(id, name, email, password)].  The embedding has three layers:

    - [Json]: the values [request.get_json()] hands to a handler and the
      values [jsonify] serialises, with Python's truthiness;
    - [Sqlite]: the [users] table and the six statements the program issues
      against it (INSERT, UPDATE, DELETE and three SELECTs), with the
      exceptions [cursor.execute] raises;
    - the handlers of [app.py] and the bootstrap of [db.py], written over a
      password hasher that is a parameter of the development (werkzeug's
      [generate_password_hash] and [check_password_hash]).

    Conventions.  A Python [str] is a [string]; each [ascii] stands for one
    character.  The salt that [generate_password_hash] draws is an explicit
    argument of every operation that hashes.  A request opens its own
    connection ([get_db]) and the connection is closed when the request ends
    ([close_db]); the program has no state besides the database file, so a
    handler is a function from the table to a response and to the table as
    committed.  Integers are [Z], unbounded, and JSON numbers are the
    integers: the storage engine's 64-bit range (rowid exhaustion, a
    parameter that overflows) and its resource limits (disk, statement
    size) are not modelled.  A property of an id that need not be a stored
    one is therefore stated for the ids that fit 64 bits ([fits_int64]).
    The limit on the size of a LIKE pattern is modelled. *)

From Stdlib Require Import ZArith String Ascii List Bool Lia Sorted DecimalString.
Import ListNotations.

#[local] Set Warnings "-register-all".
#[local] Open Scope string_scope.
#[local] Open Scope list_scope.
#[local] Open Scope Z_scope.

(** ** JSON values and Python truthiness *)

Module Json.

Inductive json : Type :=
| JNull                                   (* None *)
| JBool (b : bool)
| JNum (n : Z)
| JStr (s : string)
| JArr (items : list json)
| JObj (fields : list (string * json)).   (* a dict, first binding wins *)

(** [bool(v)]: what [not v], [v or w] and [all([...])] test. *)
Definition truthy (v : json) : bool :=
  match v with
  | JNull => false
  | JBool b => b
  | JNum n => negb (n =? 0)
  | JStr s => negb (s =? "")%string
  | JArr items => match items with [] => false | _ :: _ => true end
  | JObj fields => match fields with [] => false | _ :: _ => true end
  end.

(** [d.get(k)]: the value bound to [k], [None] when there is none. *)
Fixpoint dict_get (fields : list (string * json)) (k : string) : json :=
  match fields with
  | [] => JNull
  | (k', v) :: rest => if (k =? k')%string then v else dict_get rest k
  end.

(** [k] is a key of some object inside [v], at any depth. *)
Fixpoint has_key (k : string) (v : json) : bool :=
  match v with
  | JArr items => existsb (has_key k) items
  | JObj fields =>
      existsb (fun kv => (k =? fst kv)%string || has_key k (snd kv)) fields
  | _ => false
  end.

End Json.
Import Json.

(** ** The storage engine: one SQLite table *)

Module Sqlite.

(** Values a parameter can be bound to. *)
Inductive sqlval : Type :=
| SNull
| SInt (n : Z)
| SText (s : string).

(** What [cursor.execute] raises: [sqlite3.IntegrityError] for a
    constraint, [sqlite3.ProgrammingError] for a parameter of an
    unsupported type, [sqlite3.OperationalError] for a statement the engine
    refuses to run (the last two caught only by [except Exception]). *)
Inductive error : Type :=
| IntegrityError
| ProgrammingError
| OperationalError.

Inductive result (A : Type) : Type :=
| Ok (a : A)
| Raise (e : error).
Arguments Ok {A} a.
Arguments Raise {A} e.

Definition bind_result {A B} (r : result A) (k : A -> result B) : result B :=
  match r with
  | Ok a => k a
  | Raise e => Raise e
  end.

Notation "x <- r ;; k" := (bind_result r (fun x => k))
  (at level 61, r at next level, right associativity).

(** The sqlite3 module's adaptation of a Python value to a parameter:
    [None], [int] (and [bool], its subclass) and [str] are supported,
    [list] and [dict] are not. *)
Definition bind_param (v : json) : result sqlval :=
  match v with
  | JNull => Ok SNull
  | JBool b => Ok (SInt (if b then 1 else 0))
  | JNum n => Ok (SInt n)
  | JStr s => Ok (SText s)
  | JArr _ | JObj _ => Raise ProgrammingError
  end.

(** SQLite's INTEGER is a signed 64-bit value; the sqlite3 module raises
    OverflowError for a Python int outside it.  The statements below do
    not: they are those of the program for integers that fit. *)
Definition INT64_MIN : Z := - 2 ^ 63.
Definition INT64_MAX : Z := 2 ^ 63 - 1.

Definition fits_int64 (n : Z) : Prop := INT64_MIN <= n <= INT64_MAX.

Definition decimal (n : Z) : string := NilZero.string_of_int (Z.to_int n).

(** TEXT affinity: a value stored in, or compared with, a TEXT column is
    converted to text first.  [None] is NULL. *)
Definition text_affinity (v : sqlval) : option string :=
  match v with
  | SNull => None
  | SInt n => Some (decimal n)
  | SText s => Some s
  end.

(** A row of [users]; all three data columns are TEXT NOT NULL. *)
Record user_row : Type := mk_row {
  row_id : Z;
  row_name : string;
  row_email : string;
  row_password : string
}.

(** The table in rowid order (the order of its B-tree, in which a scan
    visits it), and the AUTOINCREMENT counter kept in [sqlite_sequence]:
    the largest rowid ever given out. *)
Record table : Type := mk_table {
  rows : list user_row;
  seq : Z
}.

Definition empty_table : table := {| rows := []; seq := 0 |}.

Definition max_rowid (rs : list user_row) : Z :=
  fold_right (fun r m => Z.max (row_id r) m) 0 rs.

Definition email_taken (e : string) (rs : list user_row) : bool :=
  existsb (fun r => (row_email r =? e)%string) rs.

(** INSERT INTO users (name, email, password) VALUES (?, ?, ?).
    Returns the new table and [lastrowid].  A constraint failure aborts
    the statement and leaves table and counter as they were. *)
Definition exec_insert (name email password : json) (t : table)
  : result (table * Z) :=
  n <- bind_param name ;;
  e <- bind_param email ;;
  p <- bind_param password ;;
  match text_affinity n, text_affinity e, text_affinity p with
  | Some n, Some e, Some p =>
      if email_taken e (rows t) then Raise IntegrityError   (* UNIQUE *)
      else
        let new_id := Z.max (seq t) (max_rowid (rows t)) + 1 in
        Ok ({| rows := rows t ++ [mk_row new_id n e p]; seq := new_id |},
            new_id)
  | _, _, _ => Raise IntegrityError                         (* NOT NULL *)
  end.

(** The columns an UPDATE may assign. *)
Inductive column : Type := ColName | ColEmail.

(** One [col = ?] of a SET clause applied to a row; [None] when the new
    value is NULL (NOT NULL fails). *)
Definition assign (r : user_row) (cv : column * sqlval) : option user_row :=
  match text_affinity (snd cv) with
  | None => None
  | Some s =>
      Some match fst cv with
           | ColName => mk_row (row_id r) s (row_email r) (row_password r)
           | ColEmail => mk_row (row_id r) (row_name r) s (row_password r)
           end
  end.

Fixpoint assign_all (r : user_row) (sets : list (column * sqlval))
  : option user_row :=
  match sets with
  | [] => Some r
  | cv :: rest =>
      match assign r cv with
      | None => None
      | Some r' => assign_all r' rest
      end
  end.

Fixpoint bind_all (vs : list json) : result (list sqlval) :=
  match vs with
  | [] => Ok []
  | v :: rest =>
      b <- bind_param v ;;
      bs <- bind_all rest ;;
      Ok (b :: bs)
  end.

Definition has_id (user_id : Z) (r : user_row) : bool := row_id r =? user_id.

(** UPDATE users SET <fields> WHERE id = ?, with the values of the SET
    clause followed by the id as parameters.  [id] is the primary key, so
    the WHERE clause selects at most one row; the UNIQUE check is against
    the other rows.  Returns the new table and [rowcount]: the number of
    rows the WHERE clause selected, whether or not the assignment changed
    their content. *)
Definition exec_update (fields : list column) (values : list json)
    (user_id : Z) (t : table) : result (table * Z) :=
  vs <- bind_all values ;;
  match find (has_id user_id) (rows t) with
  | None => Ok (t, 0)
  | Some r =>
      match assign_all r (combine fields vs) with
      | None => Raise IntegrityError                        (* NOT NULL *)
      | Some r' =>
          if email_taken (row_email r')
               (filter (fun x => negb (has_id user_id x)) (rows t))
          then Raise IntegrityError                         (* UNIQUE *)
          else
            Ok ({| rows := map (fun x => if has_id user_id x then r' else x)
                               (rows t);
                   seq := seq t |}, 1)
      end
  end.

(** DELETE FROM users WHERE id = ?; returns the table and [rowcount]. *)
Definition exec_delete (user_id : Z) (t : table) : table * Z :=
  ({| rows := filter (fun r => negb (has_id user_id r)) (rows t);
      seq := seq t |},
   Z.of_nat (length (filter (has_id user_id) (rows t)))).

(** SELECT ... FROM users: every row, in scan order. *)
Definition select_all (t : table) : list user_row := rows t.

(** SELECT ... FROM users WHERE id = ? *)
Definition select_by_id (user_id : Z) (t : table) : list user_row :=
  filter (has_id user_id) (rows t).

(** SELECT ... FROM users WHERE email = ?; the parameter is compared as
    text, and NULL equals nothing. *)
Definition select_by_email (email : json) (t : table)
  : result (list user_row) :=
  e <- bind_param email ;;
  match text_affinity e with
  | None => Ok []
  | Some e => Ok (filter (fun r => (row_email r =? e)%string) (rows t))
  end.

(** *** The LIKE operator

    [%] matches any run of characters, [_] any one character, and any
    other character itself, upper and lower case ASCII letters alike.
    There is no escape character.  Both operands are read as C strings:
    up to their first NUL. *)

Definition fold_case (c : ascii) : ascii :=
  let n := nat_of_ascii c in
  if ((65 <=? n) && (n <=? 90))%nat then ascii_of_nat (n + 32) else c.

Fixpoint cstring (s : string) : string :=
  match s with
  | EmptyString => EmptyString
  | String c rest =>
      if (c =? zero)%char then EmptyString else String c (cstring rest)
  end.

Fixpoint patternCompare (pattern s : string) : bool :=
  match pattern with
  | EmptyString => match s with EmptyString => true | String _ _ => false end
  | String c pattern' =>
      if (c =? "%")%char then
        (fix any_suffix (s : string) : bool :=
           patternCompare pattern' s
           || match s with
              | EmptyString => false
              | String _ s' => any_suffix s'
              end) s
      else
        match s with
        | EmptyString => false
        | String d s' =>
            ((c =? "_")%char || (fold_case c =? fold_case d)%char)
            && patternCompare pattern' s'
        end
  end.

Definition like (value pattern : string) : bool :=
  patternCompare (cstring pattern) (cstring value).

(** The size of a string in bytes, in UTF-8: one byte for an ASCII
    character, two for the other characters of the embedding. *)
Fixpoint utf8_length (s : string) : Z :=
  match s with
  | EmptyString => 0
  | String c rest =>
      (if (nat_of_ascii c <? 128)%nat then 1 else 2) + utf8_length rest
  end.

Definition SQLITE_MAX_LIKE_PATTERN_LENGTH : Z := 50000.

(** SELECT ... FROM users WHERE name LIKE ?.  LIKE is evaluated on every
    row, and refuses a pattern of more bytes than the limit ("LIKE or GLOB
    pattern too complex"); on a table without rows it is not evaluated. *)
Definition select_like (pattern : string) (t : table)
  : result (list user_row) :=
  match rows t with
  | [] => Ok []
  | _ :: _ =>
      if SQLITE_MAX_LIKE_PATTERN_LENGTH <? utf8_length pattern
      then Raise OperationalError
      else Ok (filter (fun r => like (row_name r) pattern) (rows t))
  end.

(** [cursor.fetchone()] *)
Definition fetchone {A} (l : list A) : option A := hd_error l.

End Sqlite.
Import Sqlite.

(** ** The password hasher

    werkzeug.security: [generate_password_hash salt password], with the salt
    it draws made explicit, and [check_password_hash pwhash password]. *)

Class PasswordHasher : Type := {
  generate_password_hash : string -> string -> string;
  check_password_hash : string -> string -> bool
}.

(** A concrete hasher, for evaluating the program on examples:

    [method$salt$password], salted and verified by recomputation like
    werkzeug's format, but with nothing hidden. *)

Definition example_hash (salt password : string) : string :=
  ("plain$" ++ salt ++ "$" ++ password)%string.

Fixpoint after_dollar (s : string) : string :=
  match s with
  | EmptyString => EmptyString
  | String c rest => if (c =? "$")%char then rest else after_dollar rest
  end.

Definition example_check (pwhash password : string) : bool :=
  (after_dollar (after_dollar pwhash) =? password)%string.

Definition example_hasher : PasswordHasher :=
  {| generate_password_hash := example_hash;
     check_password_hash := example_check |}.

(** ** The program *)

Section Program.

Context `{PasswordHasher}.

(** *** db.py *)

(** The database file: [None] when it holds no [users] table. *)
Definition database : Type := option table.

(** The file system at the path [DATABASE]: [None] when there is no file. *)
Definition filesystem : Type := option database.

Definition os_path_exists (fs : filesystem) : bool :=
  match fs with Some _ => true | None => false end.

Definition os_remove (fs : filesystem) : filesystem := None.

(** [sqlite3.connect] opens the file, creating an empty database when
    there is none. *)
Definition connect (fs : filesystem) : database :=
  match fs with
  | Some db => db
  | None => None
  end.

(** CREATE TABLE IF NOT EXISTS users (...) *)
Definition create_table_if_not_exists (db : database) : table :=
  match db with
  | Some t => t
  | None => empty_table
  end.

(** SELECT COUNT( * ) FROM users *)
Definition select_count (t : table) : Z := Z.of_nat (length (rows t)).

Definition init_db_command (salt1 salt2 salt3 : string) (fs : filesystem)
  : result filesystem :=
  let fs := if os_path_exists fs then os_remove fs else fs in
  let t := create_table_if_not_exists (connect fs) in
  if select_count t =? 0 then
    r1 <- exec_insert (JStr "John Doe") (JStr "john@example.com")
            (JStr (generate_password_hash salt1 "password123")) t ;;
    r2 <- exec_insert (JStr "Jane Smith") (JStr "jane@example.com")
            (JStr (generate_password_hash salt2 "secret456")) (fst r1) ;;
    r3 <- exec_insert (JStr "Bob Johnson") (JStr "bob@example.com")
            (JStr (generate_password_hash salt3 "qwerty789")) (fst r2) ;;
    Ok (Some (Some (fst r3)))
  else
    Ok (Some (Some t)).

(** init_db.py: remove the file, then bootstrap. *)
Definition init_db (salt1 salt2 salt3 : string) (fs : filesystem)
  : result filesystem :=
  let fs := if os_path_exists fs then os_remove fs else fs in
  init_db_command salt1 salt2 salt3 fs.

(** The table a bootstrap leaves. *)
Definition seeded (salt1 salt2 salt3 : string) : table :=
  {| rows :=
       [ mk_row 1 "John Doe" "john@example.com"
           (generate_password_hash salt1 "password123");
         mk_row 2 "Jane Smith" "jane@example.com"
           (generate_password_hash salt2 "secret456");
         mk_row 3 "Bob Johnson" "bob@example.com"
           (generate_password_hash salt3 "qwerty789") ];
     seq := 3 |}.

(** *** app.py *)

(** What a handler returns: [jsonify(body), status], or nothing, when an
    exception leaves it and Flask answers with its own 500 page. *)
Inductive response : Type :=
| Response (body : json) (status : Z)
| InternalServerError.

Definition message (text : string) : json := JObj [("message", JStr text)].

(** [dict(user)] for a row of SELECT id, name, email. *)
Definition user_dict (r : user_row) : json :=
  JObj [("id", JNum (row_id r)); ("name", JStr (row_name r));
        ("email", JStr (row_email r))].

Definition home : response :=
  Response (message "Welcome to the User Management System API") 200.

Definition get_all_users (t : table) : response :=
  let users := select_all t in
  Response (JArr (map user_dict users)) 200.

Definition get_user (user_id : Z) (t : table) : response :=
  match fetchone (select_by_id user_id t) with
  | Some user => Response (user_dict user) 200
  | None => Response (message "User not found") 404
  end.

Definition create_user (salt : string) (data : json) (t : table)
  : response * table :=
  if negb (truthy data) then (Response (message "Invalid JSON") 400, t)
  else
    match data with
    | JObj d =>
        let name := dict_get d "name" in
        let email := dict_get d "email" in
        let password := dict_get d "password" in
        if negb (forallb truthy [name; email; password]) then
          (Response (message "Missing name, email, or password") 400, t)
        else
          match password with
          | JStr p =>
              let hashed_password := generate_password_hash salt p in
              match exec_insert name email (JStr hashed_password) t with
              | Ok (t', lastrowid) =>
                  (Response (JObj [("message", JStr "User created successfully!");
                                   ("user_id", JNum lastrowid)]) 201, t')
              | Raise IntegrityError =>
                  (Response (message "User with this email already exists") 409, t)
              | Raise _ =>
                  (Response (message "An internal server error occurred") 500, t)
              end
          | _ => (InternalServerError, t)     (* hashing a non-str raises *)
          end
    | _ => (InternalServerError, t)           (* no [get] on a non-dict *)
    end.

(** The two [except] clauses of [update_user]. *)
Definition update_failed (e : error) : response :=
  match e with
  | IntegrityError => Response (message "User with this email already exists") 409
  | _ => Response (message "An internal server error occurred") 500
  end.

Definition update_user (user_id : Z) (data : json) (t : table)
  : response * table :=
  if negb (truthy data) then (Response (message "Invalid JSON") 400, t)
  else
    match data with
    | JObj d =>
        let name := dict_get d "name" in
        let email := dict_get d "email" in
        if negb (truthy name || truthy email) then
          (Response (message "No data provided for update") 400, t)
        else
          let update_fields :=
            (if truthy name then [ColName] else [])
            ++ (if truthy email then [ColEmail] else []) in
          let update_values :=
            (if truthy name then [name] else [])
            ++ (if truthy email then [email] else []) in
          match update_fields with
          | [] => (Response (message "No valid fields to update") 400, t)
          | _ :: _ =>
              match exec_update update_fields update_values user_id t with
              | Raise e => (update_failed e, t)
              | Ok (t', rowcount) =>
                  if rowcount =? 0 then
                    match fetchone (select_by_id user_id t') with
                    | None => (Response (message "User not found") 404, t')
                    | Some _ =>
                        (Response (message "User found but no changes made (data was identical)") 200, t')
                    end
                  else (Response (message "User updated successfully") 200, t')
              end
          end
    | _ => (InternalServerError, t)
    end.

Definition delete_user (user_id : Z) (t : table) : response * table :=
  let (t', rowcount) := exec_delete user_id t in
  if rowcount =? 0 then (Response (message "User not found") 404, t')
  else (Response (message "User deleted successfully") 200, t').

(** [name] is [request.args.get('name')]: [None] without the parameter. *)
Definition search_users (name : option string) (t : table) : response :=
  match name with
  | None | Some EmptyString =>
      Response (message "Please provide a 'name' query parameter to search") 400
  | Some name =>
      let search_pattern := ("%" ++ name ++ "%")%string in
      match select_like search_pattern t with
      | Raise _ => InternalServerError
      | Ok users => Response (JArr (map user_dict users)) 200
      end
  end.

Definition login (data : json) (t : table) : response :=
  if negb (truthy data) then Response (message "Invalid JSON") 400
  else
    match data with
    | JObj d =>
        let email := dict_get d "email" in
        let password := dict_get d "password" in
        if negb (forallb truthy [email; password]) then
          Response (message "Missing email or password") 400
        else
          match select_by_email email t with
          | Raise _ => InternalServerError
          | Ok found =>
              match fetchone found with
              | None =>
                  Response (JObj [("status", JStr "failed");
                                  ("message", JStr "Invalid credentials")]) 401
              | Some user =>
                  match password with
                  | JStr p =>
                      if check_password_hash (row_password user) p then
                        Response (JObj [("status", JStr "success");
                                        ("user_id", JNum (row_id user))]) 200
                      else
                        Response (JObj [("status", JStr "failed");
                                        ("message", JStr "Invalid credentials")]) 401
                  | _ => InternalServerError  (* verifying a non-str raises *)
                  end
              end
          end
    | _ => InternalServerError
    end.

(** *** The application as a state machine over the table *)

Inductive request : Type :=
| Home
| GetAllUsers
| GetUser (user_id : Z)
| CreateUser (salt : string) (data : json)
| UpdateUser (user_id : Z) (data : json)
| DeleteUser (user_id : Z)
| SearchUsers (name : option string)
| Login (data : json).

Definition handle (req : request) (t : table) : response * table :=
  match req with
  | Home => (home, t)
  | GetAllUsers => (get_all_users t, t)
  | GetUser user_id => (get_user user_id t, t)
  | CreateUser salt data => create_user salt data t
  | UpdateUser user_id data => update_user user_id data t
  | DeleteUser user_id => delete_user user_id t
  | SearchUsers name => (search_users name t, t)
  | Login data => (login data t, t)
  end.

(** The tables the program can be serving from: what a bootstrap leaves,
    and what a request leaves of such a table. *)
Inductive reachable : table -> Prop :=
| reachable_bootstrap salt1 salt2 salt3 fs fs' t :
    init_db_command salt1 salt2 salt3 fs = Ok fs' ->
    connect fs' = Some t ->
    reachable t
| reachable_request req t :
    reachable t ->
    reachable (snd (handle req t)).

(** *** Vocabulary of the properties *)

(** The primary key in scan order: strictly ascending. *)
Definition ids_ascending (rs : list user_row) : Prop :=
  StronglySorted Z.lt (map row_id rs).

(** The table with every stored hash blanked. *)
Definition blank (r : user_row) : user_row :=
  mk_row (row_id r) (row_name r) (row_email r) "".

Definition redact (t : table) : table :=
  {| rows := map blank (rows t); seq := seq t |}.

Definition body_has_key (k : string) (r : response) : bool :=
  match r with
  | Response body _ => has_key k body
  | InternalServerError => false
  end.

(** A run of requests, each on the table the one before left. *)
Fixpoint run (reqs : list request) (t : table) : table :=
  match reqs with
  | [] => t
  | req :: rest => run rest (snd (handle req t))
  end.

(** What the schema and the handlers' validation keep true of the table:
    the primary key ascending in scan order, positive and bounded by the
    AUTOINCREMENT counter; [email] UNIQUE; no empty name or email. *)
Record table_ok (t : table) : Prop := mk_table_ok {
  ok_ids : ids_ascending (rows t);
  ok_positive : Forall (fun r => 0 < row_id r) (rows t);
  ok_counter : 0 <= seq t /\ max_rowid (rows t) <= seq t;
  ok_emails : NoDup (map row_email (rows t));
  ok_nonempty : Forall (fun r => row_name r <> "" /\ row_email r <> "") (rows t)
}.

(** The string with its ASCII upper case letters folded to lower case. *)
Fixpoint lower (s : string) : string :=
  match s with
  | EmptyString => EmptyString
  | String c rest => String (fold_case c) (lower rest)
  end.

(** No LIKE wildcard and no NUL in the string. *)
Fixpoint literal (s : string) : bool :=
  match s with
  | EmptyString => true
  | String c rest =>
      negb ((c =? "%")%char || (c =? "_")%char || (c =? zero)%char)
      && literal rest
  end.

(** *** db.py: the connection of a request

    [g] holds the connection of the current request under the key [db];
    the process holds a set of open connections, and [sqlite3.connect]
    returns one that was not open before. *)

Definition connection : Type := nat.

Record context : Type := mk_context {
  g_db : option connection;             (* g.db, [None]: 'db' not in g *)
  open_connections : list connection;
  next_connection : connection          (* what [sqlite3.connect] returns *)
}.

Definition get_db (ctx : context) : connection * context :=
  match g_db ctx with
  | None =>
      let db := next_connection ctx in
      (db, {| g_db := Some db;
              open_connections := db :: open_connections ctx;
              next_connection := S db |})
  | Some db => (db, ctx)
  end.

Definition close_db (ctx : context) : context :=
  match g_db ctx with                    (* db = g.pop('db', None) *)
  | Some db =>
      {| g_db := None;
         open_connections :=
           filter (fun c => negb (c =? db)%nat) (open_connections ctx);
         next_connection := next_connection ctx |}
  | None => ctx
  end.

(** [n] calls of [get_db] in a row: the connections returned, and the
    context after the last. *)
Fixpoint get_db_times (n : nat) (ctx : context) : list connection * context :=
  match n with
  | O => ([], ctx)
  | S n' =>
      let (db, ctx') := get_db ctx in
      let (dbs, ctx'') := get_db_times n' ctx' in
      (db :: dbs, ctx'')
  end.

(** Connections are handed out in increasing order: the open ones are
    below the next. *)
Definition context_ok (ctx : context) : Prop :=
  Forall (fun c => (c < next_connection ctx)%nat) (open_connections ctx).

End Program.

(** ** Example tables *)

(** The seeded table after one more user was created. *)
Definition four_users : table :=
  snd (create_user (H := example_hasher) "s4"
         (JObj [("name", JStr "Alice Roe"); ("email", JStr "alice@example.com");
                ("password", JStr "hunter2")])
         (seeded (H := example_hasher) "s1" "s2" "s3")).

(** The seeded table of the examples, two of its rows, and two request
    bodies. *)
Definition seed_table : table := seeded (H := example_hasher) "s1" "s2" "s3".

Definition john : user_row :=
  mk_row 1 "John Doe" "john@example.com" (example_hash "s1" "password123").

Definition jane : user_row :=
  mk_row 2 "Jane Smith" "jane@example.com" (example_hash "s2" "secret456").

Definition alice_body : list (string * json) :=
  [("name", JStr "Alice Roe"); ("email", JStr "alice@example.com");
   ("password", JStr "hunter2")].

Definition alice_login : list (string * json) :=
  [("email", JStr "alice@example.com"); ("password", JStr "hunter2")].

(** * Properties *)

Section Properties.

Context `{PasswordHasher}.

(** ** Bootstrap *)

Lemma init_db_command_starts_fresh (fs : filesystem) :
  create_table_if_not_exists
    (connect (if os_path_exists fs then os_remove fs else fs)) = empty_table.
Proof. destruct fs; reflexivity. Qed.

Lemma init_db_command_seeds salt1 salt2 salt3 (fs : filesystem) :
  init_db_command salt1 salt2 salt3 fs
  = Ok (Some (Some (seeded salt1 salt2 salt3))).
Proof.
  unfold init_db_command.
  rewrite (init_db_command_starts_fresh fs).
  reflexivity.
Qed.

(** C3 (as amended): bootstrap removes the database file before it
    creates the table, so whatever the file held (nothing, an empty table,
    a populated one) it ends with exactly the three sample users, ids 1 to
    3; rows present before are discarded, and the result does not depend
    on the prior state. *)
Theorem init_db_command_resets_to_seed salt1 salt2 salt3 (fs : filesystem) :
  init_db_command salt1 salt2 salt3 fs
  = Ok (Some (Some (seeded salt1 salt2 salt3)))
  /\ select_count (seeded salt1 salt2 salt3) = 3
  /\ map (fun r => (row_id r, row_name r, row_email r))
         (rows (seeded salt1 salt2 salt3))
     = [ (1, "John Doe", "john@example.com");
         (2, "Jane Smith", "jane@example.com");
         (3, "Bob Johnson", "bob@example.com") ]
  /\ init_db_command salt1 salt2 salt3 fs
     = init_db_command salt1 salt2 salt3 None.
Proof.
  rewrite !init_db_command_seeds. repeat split.
Qed.

Corollary init_db_resets_to_seed salt1 salt2 salt3 (fs : filesystem) :
  init_db salt1 salt2 salt3 fs = Ok (Some (Some (seeded salt1 salt2 salt3))).
Proof. apply init_db_command_seeds. Qed.

(** Bootstrapping twice is bootstrapping once, with the second draw of
    salts. *)
Corollary init_db_command_twice s1 s2 s3 s1' s2' s3' fs :
  (fs' <- init_db_command s1 s2 s3 fs ;; init_db_command s1' s2' s3' fs')
  = init_db_command s1' s2' s3' fs.
Proof. now rewrite !init_db_command_seeds. Qed.

(** ** Search on the seeded table *)

(** C8: on the table a bootstrap leaves (John Doe, Jane Smith, Bob
    Johnson), the search for "oh" answers 200 with exactly the records of
    John Doe (id 1) and Bob Johnson (id 3), in this order. *)
Theorem search_oh_on_seeded_store salt1 salt2 salt3 fs :
  exists t,
    init_db_command salt1 salt2 salt3 fs = Ok (Some (Some t))
    /\ map row_name (rows t) = ["John Doe"; "Jane Smith"; "Bob Johnson"]
    /\ search_users (Some "oh") t
       = Response
           (JArr [ JObj [("id", JNum 1); ("name", JStr "John Doe");
                         ("email", JStr "john@example.com")];
                   JObj [("id", JNum 3); ("name", JStr "Bob Johnson");
                         ("email", JStr "bob@example.com")] ])
           200.
Proof.
  exists (seeded salt1 salt2 salt3).
  split; [apply init_db_command_seeds | split; reflexivity].
Qed.

(** ** Facts about lists, JSON and the engine used below *)

Lemma hd_error_filter {A} (p : A -> bool) (l : list A) :
  hd_error (filter p l) = find p l.
Proof.
  induction l as [|a l IH]; simpl; [reflexivity|].
  destruct (p a); [reflexivity | exact IH].
Qed.

Lemma filter_map_commute {A B} (f : A -> B) (p : B -> bool) (q : A -> bool)
    (l : list A) :
  (forall a, p (f a) = q a) ->
  filter p (map f l) = map f (filter q l).
Proof.
  intros Hpq. induction l as [|a l IH]; simpl; [reflexivity|].
  rewrite Hpq. destruct (q a); simpl; now rewrite IH.
Qed.

Lemma filter_all {A} (p : A -> bool) (l : list A) :
  (forall a, p a = true) -> filter p l = l.
Proof.
  intros Hp. induction l as [|a l IH]; simpl; [reflexivity|].
  now rewrite Hp, IH.
Qed.

Lemma truthy_JStr s : s <> "" -> truthy (JStr s) = true.
Proof.
  intros Hs. simpl. destruct (String.eqb_spec s ""); [contradiction | reflexivity].
Qed.

Lemma dict_get_nonempty d k s : dict_get d k = JStr s -> truthy (JObj d) = true.
Proof. destruct d; [discriminate | reflexivity]. Qed.

(** A record carries the keys id, name and email, and no other. *)
Lemma has_key_user_dict k r :
  has_key k (user_dict r)
  = ((k =? "id") || ((k =? "name") || ((k =? "email") || false)))%string.
Proof. simpl. now rewrite !orb_false_r. Qed.

Lemma has_key_user_dicts k rs :
  (k =? "id")%string = false -> (k =? "name")%string = false ->
  (k =? "email")%string = false ->
  has_key k (JArr (map user_dict rs)) = false.
Proof.
  intros Hid Hname Hemail. simpl.
  induction rs as [|r rs IH]; [reflexivity|].
  cbn [map existsb]. rewrite has_key_user_dict, Hid, Hname, Hemail. exact IH.
Qed.

Lemma user_dicts_blank rs : map user_dict (map blank rs) = map user_dict rs.
Proof. rewrite map_map. now apply map_ext. Qed.

(** ** Reads never expose the stored hash *)

Lemma get_all_users_redact t : get_all_users (redact t) = get_all_users t.
Proof.
  unfold get_all_users, select_all, redact. cbn [rows].
  now rewrite (user_dicts_blank (rows t)).
Qed.

Lemma get_user_redact user_id t :
  get_user user_id (redact t) = get_user user_id t.
Proof.
  unfold get_user, select_by_id, fetchone, redact. cbn [rows].
  rewrite (filter_map_commute blank (has_id user_id) (has_id user_id))
    by reflexivity.
  destruct (filter (has_id user_id) (rows t)); reflexivity.
Qed.

(** A pattern within the limit is matched against every name. *)
Lemma select_like_fits pattern t :
  utf8_length pattern <= SQLITE_MAX_LIKE_PATTERN_LENGTH ->
  select_like pattern t
  = Ok (filter (fun r => like (row_name r) pattern) (rows t)).
Proof.
  intros Hfits. unfold select_like.
  destruct (rows t) as [|r rs]; [reflexivity|].
  destruct (Z.ltb_spec SQLITE_MAX_LIKE_PATTERN_LENGTH (utf8_length pattern));
    [lia | reflexivity].
Qed.

Lemma search_users_redact name t :
  search_users name (redact t) = search_users name t.
Proof.
  destruct name as [[|c name]|]; try reflexivity.
  unfold search_users, select_like, redact. cbn [rows].
  destruct (rows t) as [|r rs]; [reflexivity|].
  cbn [map]. destruct (_ <? _); [reflexivity|].
  change (blank r :: map blank rs) with (map blank (r :: rs)).
  rewrite (filter_map_commute blank _
             (fun r => like (row_name r) ("%" ++ String c name ++ "%")))
    by reflexivity.
  now rewrite user_dicts_blank.
Qed.

Lemma search_users_no_key k name t :
  (k =? "id")%string = false -> (k =? "name")%string = false ->
  (k =? "email")%string = false -> (k =? "message")%string = false ->
  body_has_key k (search_users name t) = false.
Proof.
  intros Hid Hname Hemail Hmessage.
  destruct name as [[|c name]|]; cbn [search_users body_has_key];
    try (cbn; now rewrite Hmessage).
  destruct (select_like _ t); [|reflexivity].
  now apply has_key_user_dicts.
Qed.

(** C1: for every table, the bodies of the three read operations (list,
    single get, search) hold no field named password_hash (nor password,
    the column's name), and they are the bodies the same reads return once
    every stored hash is blanked: no read depends on a stored hash. *)
Theorem reads_never_expose_password_hash
    (t : table) (user_id : Z) (name : option string) :
  let reads :=
    [get_all_users t; get_user user_id t; search_users name t] in
  Forall (fun r => body_has_key "password_hash" r = false
                   /\ body_has_key "password" r = false) reads
  /\ reads = [get_all_users (redact t); get_user user_id (redact t);
              search_users name (redact t)].
Proof.
  cbv zeta. split.
  - repeat constructor.
    + apply has_key_user_dicts; reflexivity.
    + apply has_key_user_dicts; reflexivity.
    + unfold get_user.
      destruct (fetchone (select_by_id user_id t)); reflexivity.
    + unfold get_user.
      destruct (fetchone (select_by_id user_id t)); reflexivity.
    + apply search_users_no_key; reflexivity.
    + apply search_users_no_key; reflexivity.
  - now rewrite get_all_users_redact, get_user_redact, search_users_redact.
Qed.

(** ** LIKE wildcards in the search *)

Lemma patternCompare_percent s : patternCompare "%" s = true.
Proof.
  cbn [patternCompare]. change (("%" =? "%")%char) with true. cbv iota.
  induction s as [|c s IH]; [reflexivity | exact IH].
Qed.

Lemma patternCompare_percent_cons pattern s :
  patternCompare pattern s = true ->
  patternCompare (String "%" pattern) s = true.
Proof.
  intros Hm. cbn [patternCompare]. change (("%" =? "%")%char) with true.
  cbv iota. destruct s; now rewrite Hm.
Qed.

Lemma patternCompare_any_one s :
  patternCompare "%_%" s = negb (s =? "")%string.
Proof.
  cbn [patternCompare]. change (("%" =? "%")%char) with true.
  change (("_" =? "%")%char) with false. change (("_" =? "_")%char) with true.
  cbv iota.
  destruct s as [|c s]; [reflexivity|].
  cbn [orb andb String.eqb negb].
  pose proof (patternCompare_percent s) as Hs.
  cbn [patternCompare] in Hs. change (("%" =? "%")%char) with true in Hs.
  cbv iota in Hs. now rewrite Hs.
Qed.

Lemma like_percent value : like value "%%%" = true.
Proof.
  unfold like. change (cstring "%%%") with "%%%".
  do 2 apply patternCompare_percent_cons. apply patternCompare_percent.
Qed.

Lemma like_any_one value :
  like value "%_%" = negb (cstring value =? "")%string.
Proof. unfold like. apply patternCompare_any_one. Qed.

(** C9: the search string goes into the LIKE pattern as it is, so its
    wildcards stay wildcards.  On every table, the search for "%" returns
    every user, and the search for "_" returns every user whose name has
    at least one character (read as a C string), whether or not the name
    contains the character searched for. *)
Theorem search_wildcards_are_not_literal (t : table) :
  search_users (Some "%") t = Response (JArr (map user_dict (rows t))) 200
  /\ search_users (Some "_") t
     = Response
         (JArr (map user_dict
                  (filter (fun r => negb (cstring (row_name r) =? "")%string)
                          (rows t))))
         200.
Proof.
  split; unfold search_users; cbn [append];
    rewrite select_like_fits by (cbv; discriminate).
  - rewrite filter_all; [reflexivity|]. intros r. apply like_percent.
  - do 3 f_equal. apply filter_ext. intros r. apply like_any_one.
Qed.

(** On the seeded table no name contains "%" or "_", and both searches
    return all three users. *)
Example search_wildcards_on_seeded salt1 salt2 salt3 :
  let t := seeded salt1 salt2 salt3 in
  search_users (Some "%") t = get_all_users t
  /\ search_users (Some "_") t = get_all_users t
  /\ search_users (Some "J_n") t
     = Response (JArr [user_dict (mk_row 2 "Jane Smith" "jane@example.com" "")])
                200.
Proof. repeat split; reflexivity. Qed.

(** ** Login *)

Lemma login_valid_fields d email password t :
  dict_get d "email" = JStr email ->
  dict_get d "password" = JStr password ->
  email <> "" -> password <> "" ->
  login (JObj d) t
  = match find (fun r => (row_email r =? email)%string) (rows t) with
    | None =>
        Response (JObj [("status", JStr "failed");
                        ("message", JStr "Invalid credentials")]) 401
    | Some user =>
        if check_password_hash (row_password user) password then
          Response (JObj [("status", JStr "success");
                          ("user_id", JNum (row_id user))]) 200
        else
          Response (JObj [("status", JStr "failed");
                          ("message", JStr "Invalid credentials")]) 401
    end.
Proof.
  intros He Hp Hne Hnp. unfold login.
  rewrite (dict_get_nonempty d "email" email He). cbn [negb].
  rewrite He, Hp. cbn [forallb].
  rewrite (truthy_JStr email Hne), (truthy_JStr password Hnp). cbn [andb negb].
  unfold select_by_email, fetchone. cbn [bind_param bind_result text_affinity].
  now rewrite hd_error_filter.
Qed.

Lemma find_email_absent email rs :
  email_taken email rs = false ->
  find (fun r => (row_email r =? email)%string) rs = None.
Proof.
  unfold email_taken. induction rs as [|r rs IH]; simpl; [reflexivity|].
  destruct (row_email r =? email)%string; [discriminate | exact IH].
Qed.

(** For string fields the two failures of a login are one: a login whose
    email is not in the table, and a login whose email is in the table but
    whose password does not verify against the stored hash, get the same
    response, 401 with the same body. *)
Theorem login_failures_indistinguishable
    (t1 t2 : table) (d1 d2 : list (string * json))
    (email1 password1 email2 password2 : string) (user : user_row) :
  dict_get d1 "email" = JStr email1 ->
  dict_get d1 "password" = JStr password1 ->
  email1 <> "" -> password1 <> "" ->
  dict_get d2 "email" = JStr email2 ->
  dict_get d2 "password" = JStr password2 ->
  email2 <> "" -> password2 <> "" ->
  email_taken email1 (rows t1) = false ->
  find (fun r => (row_email r =? email2)%string) (rows t2) = Some user ->
  check_password_hash (row_password user) password2 = false ->
  login (JObj d1) t1 = login (JObj d2) t2
  /\ login (JObj d1) t1
     = Response (JObj [("status", JStr "failed");
                       ("message", JStr "Invalid credentials")]) 401.
Proof.
  intros He1 Hp1 Hne1 Hnp1 He2 Hp2 Hne2 Hnp2 Habsent Hfound Hwrong.
  rewrite (login_valid_fields d1 email1 password1 t1) by assumption.
  rewrite (login_valid_fields d2 email2 password2 t2) by assumption.
  rewrite (find_email_absent _ _ Habsent), Hfound, Hwrong.
  split; reflexivity.
Qed.

(** A password that is truthy but not a string passes the handler's test
    of its fields; verifying it raises, which happens only when the email
    is found. *)
Lemma login_number_password d email n t :
  dict_get d "email" = JStr email -> email <> "" ->
  dict_get d "password" = JNum n -> n <> 0 ->
  login (JObj d) t
  = match find (fun r => (row_email r =? email)%string) (rows t) with
    | None =>
        Response (JObj [("status", JStr "failed");
                        ("message", JStr "Invalid credentials")]) 401
    | Some _ => InternalServerError
    end.
Proof.
  intros He Hne Hp Hn. unfold login.
  rewrite (dict_get_nonempty d "email" email He). cbn [negb].
  rewrite He, Hp. cbn [forallb]. rewrite (truthy_JStr email Hne).
  cbn [truthy]. destruct (Z.eqb_spec n 0) as [|_]; [contradiction|].
  cbn [andb negb]. unfold select_by_email, fetchone.
  cbn [bind_param bind_result text_affinity].
  rewrite hd_error_filter. now destruct (find _ _).
Qed.

(** C2 (the code at the failing input): on the seeded table, a login with
    the password 1 (a number, which the handler's test of its fields lets
    through) is answered by Flask's 500 page for the email of John Doe,
    because verifying the password raises, and by 401 "Invalid credentials"
    for an email that is not in the table: the two failures are told
    apart, and with them whether the email is registered. *)
Theorem login_number_password_tells_failures_apart salt1 salt2 salt3 :
  login (JObj [("email", JStr "john@example.com"); ("password", JNum 1)])
    (seeded salt1 salt2 salt3)
  = InternalServerError
  /\ login (JObj [("email", JStr "nobody@example.com"); ("password", JNum 1)])
       (seeded salt1 salt2 salt3)
     = Response (JObj [("status", JStr "failed");
                       ("message", JStr "Invalid credentials")]) 401.
Proof.
  split.
  - now rewrite (login_number_password _ "john@example.com" 1).
  - now rewrite (login_number_password _ "nobody@example.com" 1).
Qed.

(** ** Create *)

Lemma create_user_valid_fields salt d name email password t :
  dict_get d "name" = JStr name ->
  dict_get d "email" = JStr email ->
  dict_get d "password" = JStr password ->
  name <> "" -> email <> "" -> password <> "" ->
  create_user salt (JObj d) t
  = if email_taken email (rows t) then
      (Response (message "User with this email already exists") 409, t)
    else
      let new_id := Z.max (seq t) (max_rowid (rows t)) + 1 in
      (Response (JObj [("message", JStr "User created successfully!");
                       ("user_id", JNum new_id)]) 201,
       {| rows := rows t
                  ++ [mk_row new_id name email
                        (generate_password_hash salt password)];
          seq := new_id |}).
Proof.
  intros Hn He Hp Hnn Hne Hnp. unfold create_user.
  rewrite (dict_get_nonempty d "name" name Hn). cbn [negb].
  rewrite Hn, He, Hp. cbn [forallb].
  rewrite (truthy_JStr name Hnn), (truthy_JStr email Hne),
    (truthy_JStr password Hnp).
  cbn [andb negb]. unfold exec_insert.
  cbn [bind_param bind_result text_affinity].
  destruct (email_taken email (rows t)); reflexivity.
Qed.

Lemma email_taken_In (first : user_row) rs :
  In first rs -> email_taken (row_email first) rs = true.
Proof.
  intros Hin. apply existsb_exists. exists first.
  split; [exact Hin | apply String.eqb_refl].
Qed.

(** C5: when the table already holds a user with the email, a create with
    that email (and non-empty name and password) answers 409 "User with
    this email already exists" and leaves the table, hence the first
    user's row, exactly as it was. *)
Theorem create_duplicate_email_conflict
    (salt : string) (t : table) (first : user_row)
    (d : list (string * json)) (name password : string) :
  In first (rows t) ->
  dict_get d "name" = JStr name ->
  dict_get d "email" = JStr (row_email first) ->
  dict_get d "password" = JStr password ->
  name <> "" -> row_email first <> "" -> password <> "" ->
  create_user salt (JObj d) t
  = (Response (message "User with this email already exists") 409, t).
Proof.
  intros Hin Hn He Hp Hnn Hne Hnp.
  rewrite (create_user_valid_fields salt d name (row_email first) password t)
    by assumption.
  now rewrite (email_taken_In first (rows t) Hin).
Qed.

Lemma le_max_rowid r rs : In r rs -> row_id r <= max_rowid rs.
Proof.
  unfold max_rowid. induction rs as [|x rs IH]; simpl; [contradiction|].
  intros [->|Hin]; [lia|]. specialize (IH Hin). lia.
Qed.

Lemma filter_has_id_above user_id rs :
  max_rowid rs < user_id -> filter (has_id user_id) rs = [].
Proof.
  intros Hlt.
  assert (Hall : forall r, In r rs -> has_id user_id r = false).
  { intros r Hin. apply le_max_rowid in Hin. unfold has_id. lia. }
  clear Hlt. induction rs as [|x rs IH]; simpl; [reflexivity|].
  rewrite (Hall x) by now left. apply IH. intros r Hin. apply Hall. now right.
Qed.

(** C6: a create with non-empty name, email and password, the email not
    yet in the table, answers 201 with a user_id, and the single get of
    that user_id on the table it leaves answers 200 with the record of
    exactly id, name and email, name and email being the ones submitted:
    no password_hash field. *)
Theorem create_then_get_user
    (salt : string) (t : table) (d : list (string * json))
    (name email password : string) :
  dict_get d "name" = JStr name ->
  dict_get d "email" = JStr email ->
  dict_get d "password" = JStr password ->
  name <> "" -> email <> "" -> password <> "" ->
  email_taken email (rows t) = false ->
  exists user_id t',
    create_user salt (JObj d) t
    = (Response (JObj [("message", JStr "User created successfully!");
                       ("user_id", JNum user_id)]) 201, t')
    /\ get_user user_id t'
       = Response (JObj [("id", JNum user_id); ("name", JStr name);
                         ("email", JStr email)]) 200
    /\ body_has_key "password_hash" (get_user user_id t') = false.
Proof.
  intros Hn He Hp Hnn Hne Hnp Hfree.
  rewrite (create_user_valid_fields salt d name email password t)
    by assumption.
  rewrite Hfree. cbv zeta.
  set (new_id := Z.max (seq t) (max_rowid (rows t)) + 1).
  eexists. eexists. split; [reflexivity|].
  assert (Hget : get_user new_id
                   {| rows := rows t
                              ++ [mk_row new_id name email
                                    (generate_password_hash salt password)];
                      seq := new_id |}
                 = Response (JObj [("id", JNum new_id); ("name", JStr name);
                                   ("email", JStr email)]) 200).
  { unfold get_user, select_by_id. cbn [rows].
    rewrite filter_app, filter_has_id_above by (subst new_id; lia).
    unfold has_id at 1. cbn [filter app row_id].
    now rewrite Z.eqb_refl. }
  split; [exact Hget | now rewrite Hget].
Qed.

(** ** The primary key stays in ascending scan order *)

Lemma StronglySorted_snoc (l : list Z) (x : Z) :
  StronglySorted Z.lt l -> Forall (fun y => y < x) l ->
  StronglySorted Z.lt (l ++ [x]).
Proof.
  induction 1 as [|y l Hsorted IH Hy]; intros Hall; simpl.
  - repeat constructor.
  - inversion Hall as [|? ? Hyx Hrest]; subst.
    constructor; [now apply IH|].
    apply Forall_app. split; [exact Hy | now repeat constructor].
Qed.

Lemma ids_ascending_filter (p : user_row -> bool) rs :
  ids_ascending rs -> ids_ascending (filter p rs).
Proof.
  unfold ids_ascending. induction rs as [|r rs IH]; simpl; intros Hs;
    [constructor|].
  inversion Hs as [|? ? Hrest Hr]; subst.
  destruct (p r); simpl; [|now apply IH].
  constructor; [now apply IH|].
  rewrite Forall_forall in *. intros y Hy. apply Hr.
  apply in_map_iff in Hy. destruct Hy as (x & <- & Hx).
  apply filter_In in Hx. apply in_map. tauto.
Qed.

Lemma assign_all_keeps r sets r' :
  assign_all r sets = Some r' ->
  row_id r' = row_id r /\ row_password r' = row_password r.
Proof.
  revert r. induction sets as [|[c v] sets IH]; simpl; intros r Hr.
  - injection Hr as <-. tauto.
  - unfold assign in Hr. cbn [fst snd] in Hr.
    destruct (text_affinity v); [|discriminate].
    apply IH in Hr. destruct c; cbn [row_id row_password] in Hr; exact Hr.
Qed.

Lemma find_has_id user_id rs r :
  find (has_id user_id) rs = Some r -> In r rs /\ row_id r = user_id.
Proof.
  intros Hf. apply find_some in Hf. unfold has_id in Hf.
  split; [tauto | lia].
Qed.

Lemma exec_insert_appends name email password t t' new_id :
  exec_insert name email password t = Ok (t', new_id) ->
  max_rowid (rows t) < new_id
  /\ exists r, row_id r = new_id /\ rows t' = rows t ++ [r].
Proof.
  unfold exec_insert, bind_result.
  destruct (bind_param name) as [n|]; [|discriminate].
  destruct (bind_param email) as [e|]; [|discriminate].
  destruct (bind_param password) as [p|]; [|discriminate].
  destruct (text_affinity n), (text_affinity e), (text_affinity p);
    try discriminate.
  destruct (email_taken _ _); [discriminate|].
  intros Heq. injection Heq as <- <-. split; [lia|].
  eexists. split; [|reflexivity]. reflexivity.
Qed.

Lemma exec_update_keeps_ids fields values user_id t t' rowcount :
  exec_update fields values user_id t = Ok (t', rowcount) ->
  map row_id (rows t') = map row_id (rows t).
Proof.
  unfold exec_update, bind_result.
  destruct (bind_all values) as [vs|]; [|discriminate].
  destruct (find (has_id user_id) (rows t)) as [r|] eqn:Hfind.
  - destruct (assign_all r (combine fields vs)) as [r'|] eqn:Hassign;
      [|discriminate].
    destruct (email_taken _ _); [discriminate|].
    intros Heq. injection Heq as <- _. cbn [rows].
    rewrite map_map. apply map_ext. intros x.
    destruct (has_id user_id x) eqn:Hx; [|reflexivity].
    apply assign_all_keeps in Hassign. apply find_has_id in Hfind.
    unfold has_id in Hx. lia.
  - intros Heq. now injection Heq as <- _.
Qed.

Lemma create_user_table salt data t :
  snd (create_user salt data t) = t
  \/ exists name email password new_id,
       exec_insert name email password t
       = Ok (snd (create_user salt data t), new_id).
Proof.
  unfold create_user.
  destruct (negb (truthy data)); [now left|].
  destruct data as [| | | | |d]; try now left.
  destruct (negb (forallb truthy _)); [now left|].
  destruct (dict_get d "password") as [| | |p| |]; try now left.
  destruct (exec_insert _ _ _ t) as [[t' new_id]|[| |]] eqn:Hins;
    try now left.
  right. do 4 eexists. exact Hins.
Qed.

Lemma update_user_table user_id data t :
  snd (update_user user_id data t) = t
  \/ exists fields values rowcount,
       exec_update fields values user_id t
       = Ok (snd (update_user user_id data t), rowcount).
Proof.
  unfold update_user.
  destruct (negb (truthy data)); [now left|].
  destruct data as [| | | | |d]; try now left.
  destruct (negb (truthy _ || truthy _)); [now left|].
  destruct (_ ++ _) as [|c fields] eqn:Hfields; [now left|].
  destruct (exec_update _ _ user_id t) as [[t' rowcount]|e] eqn:Hupd;
    [|now left].
  right. exists (c :: fields). do 2 eexists.
  rewrite Hupd. f_equal. f_equal.
  destruct (rowcount =? 0); [|reflexivity].
  destruct (fetchone _); reflexivity.
Qed.

Lemma handle_keeps_ids_ascending req t :
  ids_ascending (rows t) -> ids_ascending (rows (snd (handle req t))).
Proof.
  intros Hasc. destruct req; cbn [handle snd]; try exact Hasc.
  - destruct (create_user_table salt data t)
      as [->|(name & email & password & new_id & Hins)]; [exact Hasc|].
    apply exec_insert_appends in Hins. destruct Hins as (Hmax & r & Hid & ->).
    unfold ids_ascending. rewrite map_app. cbn [map].
    apply StronglySorted_snoc; [exact Hasc|].
    apply Forall_forall. intros y Hy.
    apply in_map_iff in Hy. destruct Hy as (x & <- & Hx).
    apply le_max_rowid in Hx. lia.
  - destruct (update_user_table user_id data t)
      as [->|(fields & values & rowcount & Hupd)]; [exact Hasc|].
    unfold ids_ascending.
    now rewrite (exec_update_keeps_ids _ _ _ _ _ _ Hupd).
  - unfold delete_user, exec_delete.
    destruct (_ =? 0); cbn [snd rows]; now apply ids_ascending_filter.
Qed.

Lemma seeded_ids_ascending salt1 salt2 salt3 :
  ids_ascending (rows (seeded salt1 salt2 salt3)).
Proof. unfold ids_ascending. cbn. repeat constructor; lia. Qed.

Lemma reachable_ids_ascending t : reachable t -> ids_ascending (rows t).
Proof.
  induction 1 as [salt1 salt2 salt3 fs fs' t Hinit Hconn | req t _ IH].
  - rewrite init_db_command_seeds in Hinit.
    injection Hinit as <-. cbn in Hconn. injection Hconn as <-.
    apply seeded_ids_ascending.
  - now apply handle_keeps_ids_ascending.
Qed.

Lemma reachable_seeded salt1 salt2 salt3 :
  reachable (seeded salt1 salt2 salt3).
Proof.
  apply (reachable_bootstrap salt1 salt2 salt3 None
           (Some (Some (seeded salt1 salt2 salt3)))); reflexivity.
Qed.

(** ** Listing *)

(** The "id" fields of the objects of a JSON list, in order. *)
Lemma listed_ids rs :
  map (fun record => match record with
                     | JObj fields => dict_get fields "id"
                     | _ => JNull
                     end)
      (map user_dict rs)
  = map (fun r => JNum (row_id r)) rs.
Proof. rewrite map_map. now apply map_ext. Qed.

(** C7: on every table the program can be serving from, the list
    operation answers 200 with one object per row of the table, the object
    {"id": id, "name": name, "email": email} of that row and nothing else,
    and the objects come in ascending order of their "id"; when the table
    has no row the answer is 200 with the empty list. *)
Theorem list_all_in_id_order (t : table) :
  reachable t ->
  get_all_users t
  = Response
      (JArr (map (fun r => JObj [("id", JNum (row_id r));
                                 ("name", JStr (row_name r));
                                 ("email", JStr (row_email r))])
                 (rows t)))
      200
  /\ (exists ids,
        StronglySorted Z.lt ids
        /\ forall records status,
             get_all_users t = Response (JArr records) status ->
             map (fun record => match record with
                                | JObj fields => dict_get fields "id"
                                | _ => JNull
                                end) records
             = map JNum ids)
  /\ (rows t = [] -> get_all_users t = Response (JArr []) 200).
Proof.
  intros Hreach. split; [reflexivity|]. split.
  - exists (map row_id (rows t)).
    split; [exact (reachable_ids_ascending t Hreach)|].
    intros records status Hlist. unfold get_all_users, select_all in Hlist.
    injection Hlist as <- _. rewrite listed_ids. now rewrite map_map.
  - intros Hempty. unfold get_all_users, select_all. now rewrite Hempty.
Qed.

(** The empty table is one the program can be serving from: delete the
    three sample users. *)
Example empty_table_reachable : reachable {| rows := []; seq := 3 |}.
Proof.
  change {| rows := []; seq := 3 |}
    with (snd (handle (DeleteUser 3)
            (snd (handle (DeleteUser 2)
               (snd (handle (DeleteUser 1) (seeded "" "" ""))))))).
  do 3 apply reachable_request. apply reachable_seeded.
Qed.

(** ** Update *)

Lemma primary_key_unique user_id rs r x :
  ids_ascending rs ->
  find (has_id user_id) rs = Some r ->
  In x rs -> has_id user_id x = true -> x = r.
Proof.
  unfold ids_ascending.
  induction rs as [|y rs IH]; simpl; intros Hs Hfind Hin Hx; [contradiction|].
  inversion Hs as [|? ? Hrest Hy]; subst.
  assert (Htail : forall z, In z rs -> has_id user_id z = true ->
                            has_id user_id y = false).
  { intros z Hz Hzid. rewrite Forall_forall in Hy.
    specialize (Hy (row_id z) (in_map row_id rs z Hz)).
    unfold has_id in *. lia. }
  destruct (has_id user_id y) eqn:Hyid.
  - injection Hfind as <-. destruct Hin as [->|Hin]; [reflexivity|].
    specialize (Htail x Hin Hx). discriminate.
  - destruct Hin as [->|Hin]; [congruence|]. now apply IH.
Qed.

Lemma map_on_key user_id (f g : user_row -> user_row) rs :
  (forall x, In x rs -> has_id user_id x = true -> f x = g x) ->
  map (fun x => if has_id user_id x then f x else x) rs
  = map (fun x => if has_id user_id x then g x else x) rs.
Proof.
  intros Hfg. apply map_ext_in. intros x Hin.
  destruct (has_id user_id x) eqn:Hx; [now apply Hfg | reflexivity].
Qed.

Lemma exec_update_rowcount fields values user_id t t' rowcount :
  exec_update fields values user_id t = Ok (t', rowcount) ->
  (rowcount = 0 /\ t' = t /\ find (has_id user_id) (rows t) = None)
  \/ (rowcount = 1 /\ exists r, find (has_id user_id) (rows t) = Some r).
Proof.
  unfold exec_update, bind_result.
  destruct (bind_all values) as [vs|]; [|discriminate].
  destruct (find (has_id user_id) (rows t)) as [r|].
  - destruct (assign_all r (combine fields vs)); [|discriminate].
    destruct (email_taken _ _); [discriminate|].
    intros Heq. injection Heq as _ <-. right. split; [reflexivity|].
    now exists r.
  - intros Heq. injection Heq as <- <-. now left.
Qed.

(** An UPDATE that selected no row is always followed by "User not
    found": the re-query finds what the UPDATE found. *)
Lemma update_user_never_reports_no_changes user_id data t :
  fst (update_user user_id data t)
  <> Response (message "User found but no changes made (data was identical)")
              200.
Proof.
  unfold update_user.
  destruct (negb (truthy data)); [discriminate|].
  destruct data as [| | | | |d]; try discriminate.
  destruct (negb (truthy _ || truthy _)); [discriminate|].
  destruct (_ ++ _) as [|c fields]; [discriminate|].
  destruct (exec_update _ _ user_id t) as [[t' rowcount]|[| |]] eqn:Hupd;
    try discriminate.
  apply exec_update_rowcount in Hupd.
  destruct Hupd as [(-> & -> & Hnone)|(-> & _)]; [|discriminate].
  cbn [Z.eqb]. unfold fetchone, select_by_id.
  rewrite hd_error_filter, Hnone. discriminate.
Qed.

(** C4 (the code at the failing input): on the seeded table, an update of
    user 1 with the name and email the row already has is answered
    "User updated successfully", not "no changes": the UPDATE selected the
    row, so its rowcount is 1.  And no update at all, on any table, is
    answered "User found but no changes made". *)
Theorem update_user_identical_values_reports_updated salt1 salt2 salt3 :
  update_user 1
    (JObj [("name", JStr "John Doe"); ("email", JStr "john@example.com")])
    (seeded salt1 salt2 salt3)
  = (Response (message "User updated successfully") 200,
     seeded salt1 salt2 salt3)
  /\ forall user_id data t,
       fst (update_user user_id data t)
       <> Response
            (message "User found but no changes made (data was identical)")
            200.
Proof.
  split; [reflexivity|].
  exact update_user_never_reports_no_changes.
Qed.

(** The 404 half of the disambiguation does hold: an update of an id the
    table does not hold, with a non-empty name, answers "User not found"
    and changes nothing. *)
Lemma update_user_absent_id user_id d name t :
  dict_get d "name" = JStr name -> name <> "" ->
  dict_get d "email" = JNull ->
  find (has_id user_id) (rows t) = None ->
  update_user user_id (JObj d) t
  = (Response (message "User not found") 404, t).
Proof.
  intros Hn Hnn He Hnone. unfold update_user.
  rewrite (dict_get_nonempty d "name" name Hn). cbn [negb].
  rewrite Hn, He, (truthy_JStr name Hnn). cbn [truthy orb negb app].
  unfold exec_update. cbn [bind_all bind_param bind_result].
  rewrite Hnone. cbn [Z.eqb]. unfold fetchone, select_by_id.
  now rewrite hd_error_filter, Hnone.
Qed.

(** An update whose name is the empty string and whose email is not goes
    to the engine as UPDATE users SET email = ? WHERE id = ?. *)
Lemma update_user_empty_name user_id d email t :
  dict_get d "name" = JStr "" ->
  dict_get d "email" = JStr email -> email <> "" ->
  update_user user_id (JObj d) t
  = match exec_update [ColEmail] [JStr email] user_id t with
    | Raise e => (update_failed e, t)
    | Ok (t', rowcount) =>
        if rowcount =? 0 then
          match fetchone (select_by_id user_id t') with
          | None => (Response (message "User not found") 404, t')
          | Some _ =>
              (Response (message "User found but no changes made (data was identical)") 200, t')
          end
        else (Response (message "User updated successfully") 200, t')
    end.
Proof.
  intros Hn He Hne. unfold update_user.
  rewrite (dict_get_nonempty d "name" "" Hn). cbn [negb].
  rewrite Hn, He, (truthy_JStr email Hne). reflexivity.
Qed.

(** C10: the update handler treats an empty string as an absent field.
    On a table the program can be serving from, for an id it holds, a body
    with name "" and a non-empty email either is refused with 409 (the
    email is another user's) and changes nothing, or is answered
    "User updated successfully" and sets the email of that row and nothing
    else; the names in the table are the same after as before.  A body
    with name "" and email "" is answered 400 and changes nothing. *)
Theorem update_user_empty_string_is_absent
    (user_id : Z) (t : table) (r : user_row)
    (d : list (string * json)) (email : string) :
  reachable t ->
  find (has_id user_id) (rows t) = Some r ->
  dict_get d "name" = JStr "" ->
  dict_get d "email" = JStr email -> email <> "" ->
  update_user user_id (JObj d) t
  = (if email_taken email
          (filter (fun x => negb (has_id user_id x)) (rows t))
     then (Response (message "User with this email already exists") 409, t)
     else (Response (message "User updated successfully") 200,
           {| rows :=
                map (fun x =>
                       if has_id user_id x
                       then mk_row (row_id x) (row_name x) email
                                   (row_password x)
                       else x) (rows t);
              seq := seq t |}))
  /\ map row_name (rows (snd (update_user user_id (JObj d) t)))
     = map row_name (rows t)
  /\ (forall d0,
        dict_get d0 "name" = JStr "" -> dict_get d0 "email" = JStr "" ->
        update_user user_id (JObj d0) t
        = (Response (message "No data provided for update") 400, t)).
Proof.
  intros Hreach Hfind Hn He Hne.
  assert (Hupd : update_user user_id (JObj d) t
                 = if email_taken email
                        (filter (fun x => negb (has_id user_id x)) (rows t))
                   then (Response (message "User with this email already exists") 409, t)
                   else (Response (message "User updated successfully") 200,
                         {| rows :=
                              map (fun x =>
                                     if has_id user_id x
                                     then mk_row (row_id x) (row_name x) email
                                                 (row_password x)
                                     else x) (rows t);
                            seq := seq t |})).
  { rewrite (update_user_empty_name user_id d email t Hn He Hne).
    unfold exec_update.
    cbn [bind_all bind_param bind_result combine assign_all assign fst snd
         text_affinity].
    rewrite Hfind. cbn [row_email].
    destruct (email_taken email _); [reflexivity|].
    cbn [Z.eqb]. do 2 f_equal.
    apply (map_on_key user_id
             (fun _ => mk_row (row_id r) (row_name r) email (row_password r))
             (fun x => mk_row (row_id x) (row_name x) email (row_password x))).
    intros x Hin Hx.
    now rewrite (primary_key_unique user_id (rows t) r x
                   (reachable_ids_ascending t Hreach) Hfind Hin Hx). }
  split; [exact Hupd|]. split.
  - rewrite Hupd. destruct (email_taken email _); [reflexivity|].
    cbn [snd rows]. rewrite map_map. apply map_ext. intros x.
    now destruct (has_id user_id x).
  - intros d0 Hn0 He0. unfold update_user.
    rewrite (dict_get_nonempty d0 "name" "" Hn0). cbn [negb].
    now rewrite Hn0, He0.
Qed.

(** In general an update that assigns a row the values it already has
    reports "User updated successfully". *)
Lemma update_user_identical_values user_id t r d :
  reachable t ->
  find (has_id user_id) (rows t) = Some r ->
  dict_get d "name" = JStr (row_name r) -> row_name r <> "" ->
  dict_get d "email" = JStr (row_email r) -> row_email r <> "" ->
  email_taken (row_email r)
    (filter (fun x => negb (has_id user_id x)) (rows t)) = false ->
  update_user user_id (JObj d) t
  = (Response (message "User updated successfully") 200, t).
Proof.
  intros Hreach Hfind Hn Hnn He Hne Hfree. unfold update_user.
  rewrite (dict_get_nonempty d "name" _ Hn). cbn [negb].
  rewrite Hn, He, (truthy_JStr _ Hnn), (truthy_JStr _ Hne).
  cbn [orb negb app]. unfold exec_update.
  cbn [bind_all bind_param bind_result combine assign_all assign fst snd
       text_affinity].
  rewrite Hfind. cbn [row_email row_id row_name row_password].
  rewrite Hfree. cbn [Z.eqb]. f_equal.
  destruct t as [rs sq]. cbn [rows seq] in *. f_equal.
  rewrite <- (map_id rs) at 2. apply map_ext_in. intros x Hin.
  destruct (has_id user_id x) eqn:Hx; [|reflexivity].
  rewrite (primary_key_unique user_id rs r x
             (reachable_ids_ascending _ Hreach) Hfind Hin Hx).
  now destruct r.
Qed.

End Properties.

(** * Further properties of the handlers and of db.py *)

Section Operations.

Context `{PasswordHasher}.

(** ** Rows and keys *)

Lemma filter_none {A} (p : A -> bool) (l : list A) :
  (forall a, In a l -> p a = false) -> filter p l = [].
Proof.
  induction l as [|a l IH]; simpl; intros Hp; [reflexivity|].
  rewrite (Hp a) by now left. apply IH. intros b Hb. apply Hp. now right.
Qed.

Lemma filter_keep {A} (p : A -> bool) (l : list A) :
  (forall a, In a l -> p a = true) -> filter p l = l.
Proof.
  induction l as [|a l IH]; simpl; intros Hp; [reflexivity|].
  rewrite (Hp a) by now left. f_equal. apply IH. intros b Hb. apply Hp. now right.
Qed.

Lemma has_id_true user_id r : has_id user_id r = true <-> row_id r = user_id.
Proof. unfold has_id. apply Z.eqb_eq. Qed.

Lemma has_id_false user_id r : has_id user_id r = false <-> row_id r <> user_id.
Proof. unfold has_id. apply Z.eqb_neq. Qed.

(** The row an id selects splits the table in two parts without the id. *)
Lemma rows_split user_id rs r :
  ids_ascending rs ->
  find (has_id user_id) rs = Some r ->
  exists l1 l2,
    rs = l1 ++ r :: l2
    /\ has_id user_id r = true
    /\ forall x, In x (l1 ++ l2) -> has_id user_id x = false.
Proof.
  unfold ids_ascending.
  induction rs as [|y rs IH]; simpl; intros Hs Hfind; [discriminate|].
  inversion Hs as [|? ? Hrest Hy]; subst.
  destruct (has_id user_id y) eqn:Hyid.
  - injection Hfind as <-. exists [], rs. repeat split; [exact Hyid|].
    cbn [app]. intros x Hx. rewrite Forall_forall in Hy.
    specialize (Hy (row_id x) (in_map row_id rs x Hx)).
    apply has_id_true in Hyid. apply has_id_false. lia.
  - destruct (IH Hrest Hfind) as (l1 & l2 & -> & Hr & Hothers).
    exists (y :: l1), l2. repeat split; [exact Hr|].
    cbn [app]. intros x [<-|Hx]; [exact Hyid | now apply Hothers].
Qed.

Lemma find_In_key rs r :
  ids_ascending rs -> In r rs -> find (has_id (row_id r)) rs = Some r.
Proof.
  intros Hasc Hin.
  destruct (find (has_id (row_id r)) rs) as [r0|] eqn:Hfind.
  - f_equal. symmetry.
    apply (primary_key_unique (row_id r) rs r0 r Hasc Hfind Hin).
    now apply has_id_true.
  - apply (find_none _ _ Hfind) in Hin. apply has_id_false in Hin.
    contradiction.
Qed.

Lemma filter_others_split user_id l1 r l2 :
  has_id user_id r = true ->
  (forall x, In x (l1 ++ l2) -> has_id user_id x = false) ->
  filter (fun x => negb (has_id user_id x)) (l1 ++ r :: l2) = l1 ++ l2.
Proof.
  intros Hr Hothers. rewrite filter_app. cbn [filter]. rewrite Hr. cbn [negb].
  rewrite <- filter_app. apply filter_keep.
  intros x Hx. now rewrite (Hothers x Hx).
Qed.

Lemma filter_key_split user_id l1 r l2 :
  has_id user_id r = true ->
  (forall x, In x (l1 ++ l2) -> has_id user_id x = false) ->
  filter (has_id user_id) (l1 ++ r :: l2) = [r].
Proof.
  intros Hr Hothers. rewrite filter_app. cbn [filter]. rewrite Hr.
  rewrite (filter_none _ l1), (filter_none _ l2); [reflexivity | |];
    intros x Hx; apply Hothers; apply in_or_app; tauto.
Qed.

Lemma map_key_split user_id (r' : user_row) l1 r l2 :
  has_id user_id r = true ->
  (forall x, In x (l1 ++ l2) -> has_id user_id x = false) ->
  map (fun x => if has_id user_id x then r' else x) (l1 ++ r :: l2)
  = l1 ++ r' :: l2.
Proof.
  intros Hr Hothers.
  assert (Hsame : forall l, (forall x, In x l -> has_id user_id x = false) ->
                            map (fun x => if has_id user_id x then r' else x) l = l).
  { intros l Hl. rewrite <- (map_id l) at 2. apply map_ext_in.
    intros x Hx. now rewrite (Hl x Hx). }
  rewrite map_app. cbn [map]. rewrite Hr.
  rewrite (Hsame l1), (Hsame l2); [reflexivity | |];
    intros x Hx; apply Hothers; apply in_or_app; tauto.
Qed.

Lemma email_taken_false e rs :
  email_taken e rs = false <-> ~ In e (map row_email rs).
Proof.
  unfold email_taken. split.
  - intros Hfree Hin. apply in_map_iff in Hin. destruct Hin as (r & <- & Hr).
    assert (Htaken : existsb (fun x => (row_email x =? row_email r)%string) rs
                     = true).
    { apply existsb_exists. exists r. split; [exact Hr | apply String.eqb_refl]. }
    congruence.
  - intros Hnot. destruct (existsb _ rs) eqn:Hex; [|reflexivity].
    apply existsb_exists in Hex. destruct Hex as (r & Hr & Heq).
    apply String.eqb_eq in Heq. exfalso. apply Hnot. subst e. now apply in_map.
Qed.

Lemma max_rowid_app rs r :
  max_rowid (rs ++ [r]) = Z.max (max_rowid rs) (Z.max (row_id r) 0).
Proof.
  unfold max_rowid. induction rs as [|x rs IH]; simpl; [lia|].
  rewrite IH. lia.
Qed.

Lemma max_rowid_nonneg rs : 0 <= max_rowid rs.
Proof. unfold max_rowid. induction rs as [|x rs IH]; simpl; lia. Qed.

Lemma max_rowid_bound rs m :
  0 <= m -> (max_rowid rs <= m <-> Forall (fun r => row_id r <= m) rs).
Proof.
  intros Hm. unfold max_rowid. induction rs as [|x rs IH]; simpl.
  - split; [constructor | lia].
  - split.
    + intros Hle. constructor; [lia|]. apply IH. lia.
    + intros Hall. inversion Hall as [|? ? Hx Hrest]; subst.
      apply IH in Hrest. lia.
Qed.

(** ** What the statements do to the table *)

Lemma decimal_nonempty n : decimal n <> "".
Proof.
  unfold decimal.
  destruct (Z.to_int n) as [d|d]; cbn; [|discriminate].
  destruct d; discriminate.
Qed.

(** A truthy value is never stored as the empty text. *)
Lemma truthy_text_nonempty v b s :
  truthy v = true -> bind_param v = Ok b -> text_affinity b = Some s ->
  s <> "".
Proof.
  destruct v as [|[|]|n|s0|l|o]; cbn; intros Ht Hb Hs; try discriminate.
  - injection Hb as <-. injection Hs as <-. apply decimal_nonempty.
  - injection Hb as <-. injection Hs as <-. apply decimal_nonempty.
  - injection Hb as <-. injection Hs as <-.
    intros ->. discriminate.
Qed.

Lemma exec_insert_inv name email password t t' new_id :
  exec_insert name email password t = Ok (t', new_id) ->
  exists n e p,
    (forall b, bind_param name = Ok b -> text_affinity b = Some n)
    /\ (forall b, bind_param email = Ok b -> text_affinity b = Some e)
    /\ (exists b, bind_param name = Ok b)
    /\ (exists b, bind_param email = Ok b)
    /\ email_taken e (rows t) = false
    /\ new_id = Z.max (seq t) (max_rowid (rows t)) + 1
    /\ t' = {| rows := rows t ++ [mk_row new_id n e p]; seq := new_id |}.
Proof.
  unfold exec_insert, bind_result.
  destruct (bind_param name) as [bn|]; [|discriminate].
  destruct (bind_param email) as [be|]; [|discriminate].
  destruct (bind_param password) as [bp|]; [|discriminate].
  destruct (text_affinity bn) as [n|] eqn:Hn; [|discriminate].
  destruct (text_affinity be) as [e|] eqn:He;
    [|destruct (text_affinity bp); discriminate].
  destruct (text_affinity bp) as [p|]; [|discriminate].
  destruct (email_taken e (rows t)) eqn:Hfree; [discriminate|].
  intros Heq. injection Heq as <- <-.
  exists n, e, p. repeat split; try (intros b Hb; now injection Hb as <-);
    eauto.
Qed.

Lemma exec_update_inv fields values user_id t t' rowcount :
  exec_update fields values user_id t = Ok (t', rowcount) ->
  (rowcount = 0 /\ t' = t /\ find (has_id user_id) (rows t) = None)
  \/ (rowcount = 1
      /\ exists r r' vs,
           find (has_id user_id) (rows t) = Some r
           /\ bind_all values = Ok vs
           /\ assign_all r (combine fields vs) = Some r'
           /\ email_taken (row_email r')
                (filter (fun x => negb (has_id user_id x)) (rows t)) = false
           /\ t' = {| rows := map (fun x => if has_id user_id x then r' else x)
                                  (rows t);
                      seq := seq t |}).
Proof.
  unfold exec_update, bind_result.
  destruct (bind_all values) as [vs|]; [|discriminate].
  destruct (find (has_id user_id) (rows t)) as [r|].
  - destruct (assign_all r (combine fields vs)) as [r'|] eqn:Hassign;
      [|discriminate].
    destruct (email_taken _ _) eqn:Hfree; [discriminate|].
    intros Heq. injection Heq as <- <-. right. split; [reflexivity|].
    exists r, r', vs. repeat split; assumption.
  - intros Heq. injection Heq as <- <-. now left.
Qed.

(** Assigning truthy values keeps name and email non-empty. *)
Lemma assign_all_nonempty values : forall fields vs r r',
  Forall (fun v => truthy v = true) values ->
  bind_all values = Ok vs ->
  assign_all r (combine fields vs) = Some r' ->
  row_name r <> "" /\ row_email r <> "" ->
  row_name r' <> "" /\ row_email r' <> "".
Proof.
  induction values as [|v values IH]; intros fields vs r r' Htruthy Hbind Hassign Hr.
  - cbn in Hbind. injection Hbind as <-.
    destruct fields; cbn in Hassign; injection Hassign as <-; exact Hr.
  - inversion Htruthy as [|? ? Hv Hrest]; subst.
    cbn [bind_all] in Hbind. unfold bind_result in Hbind.
    destruct (bind_param v) as [b|] eqn:Hb; [|discriminate].
    destruct (bind_all values) as [bs|] eqn:Hbs; [|discriminate].
    injection Hbind as <-.
    destruct fields as [|c fields]; cbn [combine assign_all] in Hassign.
    + injection Hassign as <-. exact Hr.
    + unfold assign in Hassign. cbn [fst snd] in Hassign.
      destruct (text_affinity b) as [s|] eqn:Hs; [|discriminate].
      pose proof (truthy_text_nonempty v b s Hv Hb Hs) as Hne.
      apply (IH fields bs _ r' Hrest eq_refl Hassign).
      destruct c; cbn [row_name row_email]; tauto.
Qed.

(** What [create_user] leaves: the table it got, or that table with one
    row appended, under the next id, with a fresh email. *)
Lemma create_user_inv salt data t :
  snd (create_user salt data t) = t
  \/ exists n e p,
       n <> "" /\ e <> "" /\ email_taken e (rows t) = false
       /\ create_user salt data t
          = (Response (JObj [("message", JStr "User created successfully!");
                             ("user_id",
                              JNum (Z.max (seq t) (max_rowid (rows t)) + 1))])
                      201,
             {| rows := rows t
                        ++ [mk_row (Z.max (seq t) (max_rowid (rows t)) + 1)
                                   n e p];
                seq := Z.max (seq t) (max_rowid (rows t)) + 1 |}).
Proof.
  unfold create_user.
  destruct (negb (truthy data)); [now left|].
  destruct data as [| | | | |d]; try now left.
  destruct (forallb truthy _) eqn:Hall; cbn [negb]; [|now left].
  cbn [forallb] in Hall. apply andb_prop in Hall. destruct Hall as [Hn Hall].
  apply andb_prop in Hall. destruct Hall as [He _].
  destruct (dict_get d "password") as [| | |p| |]; try now left.
  destruct (exec_insert _ _ _ t) as [[t' new_id]|[| |]] eqn:Hins;
    try now left.
  right. apply exec_insert_inv in Hins.
  destruct Hins as (n & e & p' & Hnt & Het & [bn Hbn] & [be Hbe]
                    & Hfree & -> & ->).
  exists n, e, p'. repeat split; [| |exact Hfree].
  - exact (truthy_text_nonempty _ bn n Hn Hbn (Hnt bn Hbn)).
  - exact (truthy_text_nonempty _ be e He Hbe (Het be Hbe)).
Qed.

(** What [update_user] leaves: the table it got, or the result of an
    UPDATE of truthy values that it reports as a success. *)
Lemma update_user_inv user_id data t :
  snd (update_user user_id data t) = t
  \/ exists fields values,
       Forall (fun v => truthy v = true) values
       /\ exec_update fields values user_id t
          = Ok (snd (update_user user_id data t), 1)
       /\ fst (update_user user_id data t)
          = Response (message "User updated successfully") 200.
Proof.
  unfold update_user.
  destruct (negb (truthy data)); [now left|].
  destruct data as [| | | | |d]; try now left.
  destruct (negb (truthy _ || truthy _)); [now left|].
  set (fields := (if truthy (dict_get d "name") then [ColName] else [])
                 ++ (if truthy (dict_get d "email") then [ColEmail] else [])).
  set (values := (if truthy (dict_get d "name") then [dict_get d "name"] else [])
                 ++ (if truthy (dict_get d "email")
                     then [dict_get d "email"] else [])).
  assert (Hvalues : Forall (fun v => truthy v = true) values).
  { subst values.
    destruct (truthy (dict_get d "name")) eqn:Hn,
             (truthy (dict_get d "email")) eqn:He;
      cbn [app]; repeat constructor; assumption. }
  destruct fields as [|c fields'] eqn:Hfields; [now left|].
  destruct (exec_update (c :: fields') values user_id t)
    as [[t' rowcount]|e] eqn:Hupd; [|now left].
  destruct (exec_update_inv _ _ _ _ _ _ Hupd)
    as [(-> & -> & Hnone)|(-> & _)].
  - left. cbn [Z.eqb]. now destruct (fetchone _).
  - right. exists (c :: fields'), values. cbn [Z.eqb fst snd].
    repeat split; assumption.
Qed.

(** ** The table stays well formed *)

Lemma NoDup_snoc {A} (l : list A) (a : A) :
  NoDup l -> ~ In a l -> NoDup (l ++ [a]).
Proof.
  intros Hl Ha. apply (NoDup_Add (a := a) (l := l)).
  - rewrite <- (app_nil_r l) at 1. apply Add_app.
  - now split.
Qed.

Lemma emails_unique_after_filter (keep : user_row -> bool) rs :
  NoDup (map row_email rs) -> NoDup (map row_email (filter keep rs)).
Proof.
  induction rs as [|r rs IH]; cbn [filter map]; [trivial|].
  rewrite NoDup_cons_iff. intros [Hfresh Hrest].
  destruct (keep r); [|auto].
  cbn [map]. apply NoDup_cons; [|auto].
  contradict Hfresh. apply in_map_iff in Hfresh.
  destruct Hfresh as (x & Hx & Hkept). apply filter_In in Hkept.
  rewrite <- Hx. apply in_map, Hkept.
Qed.

Lemma Forall_filter_keep {A} (P : A -> Prop) (p : A -> bool) (l : list A) :
  Forall P l -> Forall P (filter p l).
Proof.
  rewrite !Forall_forall. intros Hall x Hx. apply filter_In in Hx.
  apply Hall. tauto.
Qed.

Lemma table_ok_insert t n e p :
  table_ok t -> n <> "" -> e <> "" -> email_taken e (rows t) = false ->
  table_ok
    {| rows := rows t ++ [mk_row (Z.max (seq t) (max_rowid (rows t)) + 1) n e p];
       seq := Z.max (seq t) (max_rowid (rows t)) + 1 |}.
Proof.
  intros [Hids Hpos [Hseq Hmax] Hemails Hne] Hn He Hfree.
  set (new_id := Z.max (seq t) (max_rowid (rows t)) + 1).
  constructor; cbn [rows seq].
  - unfold ids_ascending. rewrite map_app. cbn [map row_id].
    apply StronglySorted_snoc; [exact Hids|].
    apply Forall_forall. intros y Hy.
    apply in_map_iff in Hy. destruct Hy as (x & <- & Hx).
    apply le_max_rowid in Hx. subst new_id. lia.
  - apply Forall_app. split; [exact Hpos|].
    repeat constructor. cbn [row_id]. subst new_id. lia.
  - rewrite max_rowid_app. cbn [row_id]. subst new_id. lia.
  - rewrite map_app. cbn [map row_email].
    apply NoDup_snoc; [exact Hemails | now apply email_taken_false].
  - apply Forall_app. split; [exact Hne|]. repeat constructor; assumption.
Qed.

Lemma table_ok_replace l1 r r' l2 sq :
  table_ok {| rows := l1 ++ r :: l2; seq := sq |} ->
  row_id r' = row_id r ->
  row_name r' <> "" /\ row_email r' <> "" ->
  ~ In (row_email r') (map row_email (l1 ++ l2)) ->
  table_ok {| rows := l1 ++ r' :: l2; seq := sq |}.
Proof.
  intros [Hids Hpos [Hseq Hmax] Hemails Hne] Hid Hr' Hfree.
  cbn [rows seq] in *.
  assert (Hsame : map row_id (l1 ++ r' :: l2) = map row_id (l1 ++ r :: l2)).
  { rewrite !map_app. cbn [map]. now rewrite Hid. }
  constructor; cbn [rows seq].
  - unfold ids_ascending. now rewrite Hsame.
  - apply Forall_app in Hpos. destruct Hpos as [H1 H2].
    inversion H2 as [|? ? Hr H2']; subst.
    apply Forall_app. split; [exact H1|]. constructor; [lia | exact H2'].
  - split; [exact Hseq|].
    apply max_rowid_bound in Hmax; [|exact Hseq].
    apply max_rowid_bound; [exact Hseq|].
    apply Forall_app in Hmax. destruct Hmax as [H1 H2].
    inversion H2 as [|? ? Hr H2']; subst.
    apply Forall_app. split; [exact H1|]. constructor; [lia | exact H2'].
  - rewrite map_app in Hemails. cbn [map] in Hemails.
    apply NoDup_remove_1 in Hemails.
    rewrite map_app. cbn [map].
    apply (NoDup_Add (a := row_email r') (l := map row_email l1 ++ map row_email l2)).
    + apply Add_app.
    + split; [exact Hemails | now rewrite <- map_app].
  - apply Forall_app in Hne. destruct Hne as [H1 H2].
    inversion H2 as [|? ? Hr H2']; subst.
    apply Forall_app. split; [exact H1|]. constructor; [exact Hr' | exact H2'].
Qed.

Lemma table_ok_delete (p : user_row -> bool) t :
  table_ok t -> table_ok {| rows := filter p (rows t); seq := seq t |}.
Proof.
  intros [Hids Hpos [Hseq Hmax] Hemails Hne].
  constructor; cbn [rows seq].
  - now apply ids_ascending_filter.
  - now apply Forall_filter_keep.
  - split; [exact Hseq|].
    apply max_rowid_bound; [exact Hseq|]. apply Forall_filter_keep.
    now apply max_rowid_bound.
  - now apply emails_unique_after_filter.
  - now apply Forall_filter_keep.
Qed.

Lemma table_ok_update fields values user_id t t' :
  table_ok t ->
  Forall (fun v => truthy v = true) values ->
  exec_update fields values user_id t = Ok (t', 1) ->
  table_ok t'.
Proof.
  intros Hok Htruthy Hupd.
  destruct (exec_update_inv _ _ _ _ _ _ Hupd)
    as [(Hzero & _)|(_ & r & r' & vs & Hfind & Hbind & Hassign & Hfree & ->)];
    [discriminate|].
  destruct (rows_split user_id (rows t) r (ok_ids t Hok) Hfind)
    as (l1 & l2 & Hrows & Hr & Hothers).
  rewrite Hrows in Hfree |- *.
  rewrite (filter_others_split user_id l1 r l2 Hr Hothers) in Hfree.
  rewrite (map_key_split user_id r' l1 r l2 Hr Hothers).
  destruct t as [rs sq]. cbn [rows seq] in *. subst rs.
  apply (table_ok_replace l1 r r' l2 sq Hok).
  - exact (proj1 (assign_all_keeps r _ r' Hassign)).
  - apply (assign_all_nonempty values fields vs r r' Htruthy Hbind Hassign).
    pose proof (ok_nonempty _ Hok) as Hne. cbn [rows] in Hne.
    apply Forall_app in Hne. destruct Hne as [_ Hne].
    now inversion Hne.
  - now apply email_taken_false.
Qed.

Lemma handle_keeps_table_ok req t :
  table_ok t -> table_ok (snd (handle req t)).
Proof.
  intros Hok. destruct req as [| |uid|salt data|uid data|uid|name|data];
    cbn [handle snd]; try exact Hok.
  - destruct (create_user_inv salt data t)
      as [->|(n & e & p & Hn & He & Hfree & ->)]; [exact Hok|].
    cbn [snd]. now apply table_ok_insert.
  - destruct (update_user_inv uid data t)
      as [->|(fields & values & Htruthy & Hupd & _)]; [exact Hok|].
    exact (table_ok_update fields values uid t _ Hok Htruthy Hupd).
  - unfold delete_user, exec_delete.
    destruct (_ =? 0); cbn [snd]; now apply table_ok_delete.
Qed.

Lemma seeded_table_ok salt1 salt2 salt3 : table_ok (seeded salt1 salt2 salt3).
Proof.
  constructor; cbn.
  - apply seeded_ids_ascending.
  - repeat constructor.
  - lia.
  - repeat constructor; cbn; intuition discriminate.
  - repeat constructor; discriminate.
Qed.

Lemma reachable_table_ok t : reachable t -> table_ok t.
Proof.
  induction 1 as [salt1 salt2 salt3 fs fs' t Hinit Hconn | req t _ IH].
  - rewrite init_db_command_seeds in Hinit.
    injection Hinit as <-. cbn in Hconn. injection Hconn as <-.
    apply seeded_table_ok.
  - now apply handle_keeps_table_ok.
Qed.

Lemma run_keeps_table_ok reqs : forall t, table_ok t -> table_ok (run reqs t).
Proof.
  induction reqs as [|req reqs IH]; intros t Hok; cbn [run]; [exact Hok|].
  apply IH. now apply handle_keeps_table_ok.
Qed.

Lemma run_reachable reqs : forall t, reachable t -> reachable (run reqs t).
Proof.
  induction reqs as [|req reqs IH]; intros t Hr; cbn [run]; [exact Hr|].
  apply IH. now apply reachable_request.
Qed.

(** ** Invariants of the tables the program serves from *)

Lemma NoDup_map_injective {A B} (f : A -> B) (l : list A) (a b : A) :
  NoDup (map f l) -> In a l -> In b l -> f a = f b -> a = b.
Proof.
  induction l as [|x l IH]; simpl; intros Hnd Ha Hb Hab; [contradiction|].
  inversion Hnd as [|? ? Hnotin Hrest]; subst.
  destruct Ha as [->|Ha], Hb as [->|Hb]; [reflexivity | | |now apply IH].
  - exfalso. apply Hnotin. rewrite Hab. now apply in_map.
  - exfalso. apply Hnotin. rewrite <- Hab. now apply in_map.
Qed.

(** X1: in every table the program can be serving from, a row is
    identified by its id and also by its email: two rows with the same id,
    or with the same email, are the same row. *)
Theorem stored_users_have_distinct_ids_and_emails
    (t : table) (r1 r2 : user_row) :
  reachable t ->
  In r1 (rows t) -> In r2 (rows t) ->
  row_id r1 = row_id r2 \/ row_email r1 = row_email r2 ->
  r1 = r2.
Proof.
  intros Hreach H1 H2 [Hid|Hemail].
  - pose proof (reachable_table_ok t Hreach) as Hok.
    pose proof (find_In_key (rows t) r1 (ok_ids t Hok) H1) as F1.
    pose proof (find_In_key (rows t) r2 (ok_ids t Hok) H2) as F2.
    rewrite Hid in F1. congruence.
  - apply (NoDup_map_injective row_email (rows t)); try assumption.
    exact (ok_emails t (reachable_table_ok t Hreach)).
Qed.

(** X2: no table the program can be serving from holds a user with an
    empty name or an empty email, and every id is positive and at most the
    AUTOINCREMENT counter. *)
Theorem stored_users_have_name_email_and_positive_id
    (t : table) (r : user_row) :
  reachable t -> In r (rows t) ->
  row_name r <> "" /\ row_email r <> "" /\ 0 < row_id r <= seq t.
Proof.
  intros Hreach Hin.
  destruct (reachable_table_ok t Hreach) as [_ Hpos [Hseq Hmax] _ Hne].
  rewrite Forall_forall in Hpos, Hne.
  destruct (Hne r Hin) as [Hn He]. specialize (Hpos r Hin).
  apply le_max_rowid in Hin. repeat split; try assumption; lia.
Qed.

(** ** Delete *)

Lemma existsb_filter_nil {A} (p : A -> bool) (l : list A) :
  existsb p l = false <-> filter p l = [].
Proof.
  induction l as [|a l IH]; simpl; [tauto|].
  destruct (p a); simpl; [split; discriminate | exact IH].
Qed.

Lemma delete_user_spec user_id t :
  delete_user user_id t
  = if existsb (has_id user_id) (rows t)
    then (Response (message "User deleted successfully") 200,
          {| rows := filter (fun r => negb (has_id user_id r)) (rows t);
             seq := seq t |})
    else (Response (message "User not found") 404, t).
Proof.
  unfold delete_user, exec_delete.
  destruct (existsb (has_id user_id) (rows t)) eqn:Hex.
  - destruct (filter (has_id user_id) (rows t)) as [|x l] eqn:Hf.
    + apply existsb_filter_nil in Hf. congruence.
    + cbn [length]. rewrite Nat2Z.inj_succ.
      destruct (Z.succ _ =? 0) eqn:Hz; [|reflexivity].
      apply Z.eqb_eq in Hz. lia.
  - pose proof Hex as Hf. apply existsb_filter_nil in Hf. rewrite Hf.
    cbn [length Z.of_nat Z.eqb]. f_equal.
    destruct t as [rs sq]. cbn [rows seq] in *. f_equal.
    apply filter_keep. intros r Hr.
    destruct (has_id user_id r) eqn:Hid; [|reflexivity].
    assert (existsb (has_id user_id) rs = true)
      by (apply existsb_exists; eauto).
    congruence.
Qed.

Lemma existsb_has_id user_id rs :
  existsb (has_id user_id) rs = true <-> In user_id (map row_id rs).
Proof.
  rewrite existsb_exists, in_map_iff. split.
  - intros (r & Hr & Hid). exists r. apply has_id_true in Hid. tauto.
  - intros (r & Hid & Hr). exists r. split; [exact Hr | now apply has_id_true].
Qed.

Lemma get_user_absent user_id t :
  ~ In user_id (map row_id (rows t)) ->
  get_user user_id t = Response (message "User not found") 404.
Proof.
  intros Habsent. unfold get_user, select_by_id, fetchone.
  rewrite filter_none; [reflexivity|].
  intros r Hr. apply has_id_false. intros Hid. apply Habsent.
  rewrite <- Hid. now apply in_map.
Qed.

(** X3: a delete of an id that fits 64 bits and that the table does not
    hold answers 404 "User not found" and leaves the table as it was. *)
Theorem delete_user_absent_id (user_id : Z) (t : table) :
  fits_int64 user_id ->
  ~ In user_id (map row_id (rows t)) ->
  delete_user user_id t = (Response (message "User not found") 404, t).
Proof.
  intros _ Habsent. rewrite delete_user_spec.
  destruct (existsb (has_id user_id) (rows t)) eqn:Hex; [|reflexivity].
  apply existsb_has_id in Hex. contradiction.
Qed.

(** X4: on a table the program can be serving from, the delete of a stored
    user answers 200, removes that row and no other, keeps the order of the
    rest and the counter; after it the single get and a second delete of
    the id answer 404. *)
Theorem delete_user_removes_that_user_only (t : table) (r : user_row) :
  reachable t -> In r (rows t) ->
  exists l1 l2,
    rows t = l1 ++ r :: l2
    /\ delete_user (row_id r) t
       = (Response (message "User deleted successfully") 200,
          {| rows := l1 ++ l2; seq := seq t |})
    /\ get_user (row_id r) {| rows := l1 ++ l2; seq := seq t |}
       = Response (message "User not found") 404
    /\ delete_user (row_id r) {| rows := l1 ++ l2; seq := seq t |}
       = (Response (message "User not found") 404,
          {| rows := l1 ++ l2; seq := seq t |}).
Proof.
  intros Hreach Hin.
  pose proof (ok_ids t (reachable_table_ok t Hreach)) as Hasc.
  destruct (rows_split (row_id r) (rows t) r Hasc (find_In_key _ _ Hasc Hin))
    as (l1 & l2 & Hrows & Hr & Hothers).
  exists l1, l2. split; [exact Hrows|].
  assert (Habsent : ~ In (row_id r) (map row_id (l1 ++ l2))).
  { intros Hid. apply in_map_iff in Hid. destruct Hid as (x & Hx & Hxin).
    specialize (Hothers x Hxin). apply has_id_false in Hothers. contradiction. }
  split; [|split].
  - rewrite delete_user_spec.
    replace (existsb (has_id (row_id r)) (rows t)) with true
      by (symmetry; apply existsb_has_id; now apply in_map).
    now rewrite Hrows, (filter_others_split _ l1 r l2 Hr Hothers).
  - now apply get_user_absent.
  - rewrite delete_user_spec. cbn [rows].
    destruct (existsb (has_id (row_id r)) (l1 ++ l2)) eqn:Hex; [|reflexivity].
    apply existsb_has_id in Hex. contradiction.
Qed.

(** ** Failures change nothing; ids are not given out twice *)

(** X5: a request changes the table only when it is answered as a
    success: 201 for a create, 200 "User updated successfully", or 200
    "User deleted successfully".  Under every other answer (400, 401, 404,
    409, 500) the table is what it was. *)
Theorem failed_requests_change_nothing (req : request) (t : table) :
  snd (handle req t) = t
  \/ (exists user_id,
        fst (handle req t)
        = Response (JObj [("message", JStr "User created successfully!");
                          ("user_id", JNum user_id)]) 201)
  \/ fst (handle req t) = Response (message "User updated successfully") 200
  \/ fst (handle req t) = Response (message "User deleted successfully") 200.
Proof.
  destruct req as [| |uid|salt data|uid data|uid|name|data];
    cbn [handle]; try now left.
  - destruct (create_user_inv salt data t)
      as [Hsame|(n & e & p & _ & _ & _ & ->)]; [now left|].
    right. left. eexists. reflexivity.
  - destruct (update_user_inv uid data t)
      as [Hsame|(fields & values & _ & _ & ->)]; [now left|].
    right. right. now left.
  - rewrite delete_user_spec.
    destruct (existsb _ _); [|now left]. right. right. now right.
Qed.

Lemma handle_keeps_old_ids_out req t user_id :
  table_ok t -> user_id <= seq t ->
  ~ In user_id (map row_id (rows t)) ->
  seq t <= seq (snd (handle req t))
  /\ ~ In user_id (map row_id (rows (snd (handle req t)))).
Proof.
  intros Hok Hle Habsent.
  destruct req as [| |uid|salt data|uid data|uid|name|data];
    cbn [handle snd]; try (split; [lia | exact Habsent]).
  - destruct (create_user_inv salt data t)
      as [->|(n & e & p & _ & _ & _ & ->)]; [split; [lia | exact Habsent]|].
    cbn [snd rows seq]. split; [lia|].
    rewrite map_app, in_app_iff. cbn [map In row_id].
    intros [Hin|[Heq|[]]]; [contradiction | lia].
  - destruct (update_user_table uid data t)
      as [->|(fields & values & rowcount & Hupd)];
      [split; [lia | exact Habsent]|].
    rewrite (exec_update_keeps_ids _ _ _ _ _ _ Hupd).
    split; [|exact Habsent].
    unfold exec_update, bind_result in Hupd.
    destruct (bind_all values); [|discriminate].
    destruct (find _ _); [|injection Hupd as <- _; lia].
    destruct (assign_all _ _); [|discriminate].
    destruct (email_taken _ _); [discriminate|].
    injection Hupd as <- _. cbn [seq]. lia.
  - rewrite delete_user_spec.
    destruct (existsb _ _); cbn [snd rows seq]; (split; [lia|]);
      [|exact Habsent].
    intros Hin. apply Habsent. apply in_map_iff in Hin.
    destruct Hin as (x & Hx & Hxin). apply filter_In in Hxin.
    rewrite <- Hx. apply in_map. tauto.
Qed.

Lemma run_keeps_old_ids_out reqs user_id : forall t,
  table_ok t -> user_id <= seq t ->
  ~ In user_id (map row_id (rows t)) ->
  ~ In user_id (map row_id (rows (run reqs t))).
Proof.
  induction reqs as [|req reqs IH]; intros t Hok Hle Habsent; cbn [run];
    [exact Habsent|].
  destruct (handle_keeps_old_ids_out req t user_id Hok Hle Habsent)
    as [Hseq Hout].
  apply IH; [now apply handle_keeps_table_ok | lia | exact Hout].
Qed.

(** X6: deletion is permanent.  Once a delete of an id was answered 200 on
    a table the program can be serving from, the single get of that id
    answers 404 after any further run of requests: no later create is given
    the id again. *)
Theorem deleted_id_is_never_reassigned
    (t : table) (user_id : Z) (reqs : list request) :
  reachable t ->
  fst (delete_user user_id t)
  = Response (message "User deleted successfully") 200 ->
  get_user user_id (run reqs (snd (delete_user user_id t)))
  = Response (message "User not found") 404.
Proof.
  intros Hreach Hdeleted.
  pose proof (reachable_table_ok t Hreach) as Hok.
  rewrite delete_user_spec in Hdeleted |- *.
  destruct (existsb (has_id user_id) (rows t)) eqn:Hex; [|discriminate].
  cbn [snd]. apply get_user_absent.
  apply run_keeps_old_ids_out.
  - now apply table_ok_delete.
  - cbn [seq]. apply existsb_has_id in Hex. apply in_map_iff in Hex.
    destruct Hex as (r & <- & Hr). apply le_max_rowid in Hr.
    pose proof (ok_counter t Hok). lia.
  - cbn [rows]. intros Hin. apply in_map_iff in Hin.
    destruct Hin as (x & Hx & Hxin). apply filter_In in Hxin.
    destruct Hxin as [_ Hneg]. apply has_id_true in Hx. now rewrite Hx in Hneg.
Qed.

(** ** Login and create *)

Lemma find_email_unique rs r :
  NoDup (map row_email rs) -> In r rs ->
  find (fun x => (row_email x =? row_email r)%string) rs = Some r.
Proof.
  intros Hnd Hin.
  destruct (find _ rs) as [r0|] eqn:Hfind.
  - apply find_some in Hfind. destruct Hfind as [Hin0 Heq].
    apply String.eqb_eq in Heq. f_equal.
    now apply (NoDup_map_injective row_email rs).
  - apply (find_none _ _ Hfind) in Hin. now rewrite String.eqb_refl in Hin.
Qed.

Lemma find_after_none {A} (p : A -> bool) (l1 l2 : list A) :
  find p l1 = None -> find p (l1 ++ l2) = find p l2.
Proof.
  induction l1 as [|a l1 IH]; simpl; [reflexivity|].
  destruct (p a); [discriminate | exact IH].
Qed.

(** X7: on a table the program can be serving from, a login with the email
    of a stored user and a password that verifies against that user's hash
    answers 200 "success" with that user's id. *)
Theorem login_succeeds_for_stored_user
    (t : table) (r : user_row) (d : list (string * json)) (password : string) :
  reachable t -> In r (rows t) ->
  dict_get d "email" = JStr (row_email r) ->
  dict_get d "password" = JStr password -> password <> "" ->
  check_password_hash (row_password r) password = true ->
  login (JObj d) t
  = Response (JObj [("status", JStr "success"); ("user_id", JNum (row_id r))])
             200.
Proof.
  intros Hreach Hin He Hp Hnp Hcheck.
  pose proof (reachable_table_ok t Hreach) as Hok.
  pose proof (ok_nonempty t Hok) as Hne. rewrite Forall_forall in Hne.
  rewrite (login_valid_fields d (row_email r) password t He Hp
             (proj2 (Hne r Hin)) Hnp).
  now rewrite (find_email_unique (rows t) r (ok_emails t Hok) Hin), Hcheck.
Qed.

(** X8: create then login.  When the hasher verifies the hash it made of
    the password, a create with non-empty name, email and password and an
    email not yet in the table answers 201 with a user_id, and a login with
    that email and password on the table it leaves answers 200 "success"
    with the same user_id. *)
Theorem create_then_login
    (salt : string) (t : table) (d d' : list (string * json))
    (name email password : string) :
  dict_get d "name" = JStr name ->
  dict_get d "email" = JStr email ->
  dict_get d "password" = JStr password ->
  name <> "" -> email <> "" -> password <> "" ->
  email_taken email (rows t) = false ->
  dict_get d' "email" = JStr email ->
  dict_get d' "password" = JStr password ->
  check_password_hash (generate_password_hash salt password) password = true ->
  exists user_id t',
    create_user salt (JObj d) t
    = (Response (JObj [("message", JStr "User created successfully!");
                       ("user_id", JNum user_id)]) 201, t')
    /\ login (JObj d') t'
       = Response (JObj [("status", JStr "success"); ("user_id", JNum user_id)])
                  200.
Proof.
  intros Hn He Hp Hnn Hne Hnp Hfree He' Hp' Hcheck.
  rewrite (create_user_valid_fields salt d name email password t)
    by assumption.
  rewrite Hfree. cbv zeta. eexists. eexists. split; [reflexivity|].
  rewrite (login_valid_fields d' email password _ He' Hp' Hne Hnp).
  cbn [rows].
  rewrite (find_after_none _ _ _ (find_email_absent email (rows t) Hfree)).
  cbn [find row_email]. rewrite String.eqb_refl.
  cbn [row_password row_id]. now rewrite Hcheck.
Qed.

(** X9: create then list.  After a successful create the listing is the
    listing before with the record of the new user appended: the records of
    the other users are unchanged and keep their order. *)
Theorem create_appends_to_listing
    (salt : string) (t : table) (d : list (string * json))
    (name email password : string) :
  dict_get d "name" = JStr name ->
  dict_get d "email" = JStr email ->
  dict_get d "password" = JStr password ->
  name <> "" -> email <> "" -> password <> "" ->
  email_taken email (rows t) = false ->
  exists user_id before,
    get_all_users t = Response (JArr before) 200
    /\ fst (create_user salt (JObj d) t)
       = Response (JObj [("message", JStr "User created successfully!");
                         ("user_id", JNum user_id)]) 201
    /\ get_all_users (snd (create_user salt (JObj d) t))
       = Response
           (JArr (before
                  ++ [JObj [("id", JNum user_id); ("name", JStr name);
                            ("email", JStr email)]]))
           200.
Proof.
  intros Hn He Hp Hnn Hne Hnp Hfree.
  rewrite (create_user_valid_fields salt d name email password t)
    by assumption.
  rewrite Hfree. cbv zeta. cbn [fst snd].
  eexists. exists (map user_dict (rows t)).
  split; [reflexivity|]. split; [reflexivity|].
  unfold get_all_users, select_all. cbn [rows]. now rewrite map_app.
Qed.

(** X10: create then delete.  Deleting the user a create has just made
    answers 200 and gives back the rows the table had before the create;
    only the AUTOINCREMENT counter has moved, to the id that was used. *)
Theorem create_then_delete
    (salt : string) (t : table) (d : list (string * json))
    (name email password : string) :
  dict_get d "name" = JStr name ->
  dict_get d "email" = JStr email ->
  dict_get d "password" = JStr password ->
  name <> "" -> email <> "" -> password <> "" ->
  email_taken email (rows t) = false ->
  exists user_id t',
    create_user salt (JObj d) t
    = (Response (JObj [("message", JStr "User created successfully!");
                       ("user_id", JNum user_id)]) 201, t')
    /\ delete_user user_id t'
       = (Response (message "User deleted successfully") 200,
          {| rows := rows t; seq := user_id |}).
Proof.
  intros Hn He Hp Hnn Hne Hnp Hfree.
  rewrite (create_user_valid_fields salt d name email password t)
    by assumption.
  rewrite Hfree. cbv zeta.
  set (new_id := Z.max (seq t) (max_rowid (rows t)) + 1).
  eexists. eexists. split; [reflexivity|].
  rewrite delete_user_spec. cbn [rows seq].
  rewrite existsb_app. cbn [existsb]. unfold has_id at 2. cbn [row_id].
  rewrite Z.eqb_refl. cbn [orb]. rewrite orb_true_r. do 2 f_equal.
  rewrite filter_app. cbn [filter]. unfold has_id at 2. cbn [row_id].
  rewrite Z.eqb_refl. cbn [negb]. rewrite app_nil_r.
  apply filter_keep. intros r Hr. apply le_max_rowid in Hr.
  apply negb_true_iff, has_id_false. subst new_id. lia.
Qed.

(** ** Single get *)

(** X11: on a table the program can be serving from, the single get of a
    stored user's id answers 200 with the object {"id": id, "name": name,
    "email": email} of that user's row, and the single get of an id that
    fits 64 bits and that the table does not hold answers 404 "User not
    found". *)
Theorem get_user_finds_the_row_of_the_id (t : table) :
  reachable t ->
  (forall r, In r (rows t) ->
             get_user (row_id r) t
             = Response (JObj [("id", JNum (row_id r));
                               ("name", JStr (row_name r));
                               ("email", JStr (row_email r))]) 200)
  /\ (forall user_id, fits_int64 user_id ->
                      ~ In user_id (map row_id (rows t)) ->
                      get_user user_id t
                      = Response (message "User not found") 404).
Proof.
  intros Hreach. split.
  - intros r Hin. unfold get_user, select_by_id, fetchone.
    rewrite hd_error_filter.
    now rewrite (find_In_key (rows t) r
                   (ok_ids t (reachable_table_ok t Hreach)) Hin).
  - intros user_id _ Habsent. now apply get_user_absent.
Qed.

(** ** No response carries a password *)

(** X12: whatever the request and the table, the body of the response has
    no field named password or password_hash, at any depth. *)
Theorem no_response_carries_a_password (req : request) (t : table) :
  body_has_key "password" (fst (handle req t)) = false
  /\ body_has_key "password_hash" (fst (handle req t)) = false.
Proof.
  destruct req as [| |uid|salt data|uid data|uid|name|data]; cbn [handle fst].
  - split; reflexivity.
  - split; apply has_key_user_dicts; reflexivity.
  - unfold get_user. destruct (fetchone _); split; reflexivity.
  - unfold create_user.
    destruct (negb (truthy data)); [split; reflexivity|].
    destruct data as [| | | | |d]; try (split; reflexivity).
    destruct (negb (forallb truthy _)); [split; reflexivity|].
    destruct (dict_get d "password"); try (split; reflexivity).
    destruct (exec_insert _ _ _ t) as [[t' new_id]|[| |]]; split; reflexivity.
  - unfold update_user.
    destruct (negb (truthy data)); [split; reflexivity|].
    destruct data as [| | | | |d]; try (split; reflexivity).
    destruct (negb (truthy _ || truthy _)); [split; reflexivity|].
    destruct (_ ++ _); [split; reflexivity|].
    destruct (exec_update _ _ uid t) as [[t' rowcount]|[| |]];
      try (split; reflexivity).
    destruct (rowcount =? 0); [|split; reflexivity].
    destruct (fetchone _); split; reflexivity.
  - rewrite delete_user_spec. destruct (existsb _ _); split; reflexivity.
  - split; apply search_users_no_key; reflexivity.
  - unfold login.
    destruct (negb (truthy data)); [split; reflexivity|].
    destruct data as [| | | | |d]; try (split; reflexivity).
    destruct (negb (forallb truthy _)); [split; reflexivity|].
    destruct (select_by_email _ t) as [found|]; [|split; reflexivity].
    destruct (fetchone found) as [user|]; [|split; reflexivity].
    destruct (dict_get d "password"); try (split; reflexivity).
    destruct (check_password_hash _ _); split; reflexivity.
Qed.

(** ** Update *)

Lemma email_free_among_others l1 r l2 :
  NoDup (map row_email (l1 ++ r :: l2)) ->
  email_taken (row_email r) (l1 ++ l2) = false.
Proof.
  intros Hnd. apply email_taken_false.
  rewrite map_app in Hnd. cbn [map] in Hnd.
  apply NoDup_remove_2 in Hnd. now rewrite map_app.
Qed.

(** X13: on a table the program can be serving from, an update of a stored
    user that submits a non-empty name and no email (absent, null or empty)
    answers "User updated successfully" and replaces the name of that row;
    its id, email and password, the other rows and the order are as before.
    It is never refused with 409. *)
Theorem update_user_name_only
    (t : table) (r : user_row) (d : list (string * json)) (name : string) :
  reachable t -> In r (rows t) ->
  dict_get d "name" = JStr name -> name <> "" ->
  truthy (dict_get d "email") = false ->
  exists l1 l2,
    rows t = l1 ++ r :: l2
    /\ update_user (row_id r) (JObj d) t
       = (Response (message "User updated successfully") 200,
          {| rows := l1 ++ mk_row (row_id r) name (row_email r) (row_password r)
                           :: l2;
             seq := seq t |}).
Proof.
  intros Hreach Hin Hn Hnn He.
  pose proof (reachable_table_ok t Hreach) as Hok.
  pose proof (find_In_key (rows t) r (ok_ids t Hok) Hin) as Hfind.
  destruct (rows_split (row_id r) (rows t) r (ok_ids t Hok) Hfind)
    as (l1 & l2 & Hrows & Hr & Hothers).
  exists l1, l2. split; [exact Hrows|].
  unfold update_user.
  rewrite (dict_get_nonempty d "name" name Hn). cbn [negb].
  rewrite He, Hn, (truthy_JStr name Hnn). cbn [orb negb app].
  unfold exec_update.
  cbn [bind_all bind_param bind_result combine assign_all assign fst snd
       text_affinity].
  rewrite Hfind. cbn [row_email].
  rewrite Hrows at 1. rewrite (filter_others_split _ l1 r l2 Hr Hothers).
  rewrite (email_free_among_others l1 r l2)
    by (rewrite <- Hrows; exact (ok_emails t Hok)).
  cbn [Z.eqb]. do 2 f_equal.
  rewrite Hrows. apply (map_key_split _ _ l1 r l2 Hr Hothers).
Qed.

(** X14: an update that submits the email of another user is refused as a
    whole: it answers 409 "User with this email already exists" and the
    table is as before, also when the same body carries a new name. *)
Theorem update_user_conflict_changes_nothing
    (user_id : Z) (t : table) (r other : user_row)
    (d : list (string * json)) (name : string) :
  find (has_id user_id) (rows t) = Some r ->
  In other (rows t) -> row_id other <> user_id ->
  dict_get d "name" = JStr name ->
  dict_get d "email" = JStr (row_email other) -> row_email other <> "" ->
  update_user user_id (JObj d) t
  = (Response (message "User with this email already exists") 409, t).
Proof.
  intros Hfind Hother Hne Hn He Hnonempty.
  assert (Htaken : email_taken (row_email other)
                     (filter (fun x => negb (has_id user_id x)) (rows t))
                   = true).
  { apply existsb_exists. exists other. split; [|apply String.eqb_refl].
    apply filter_In. split; [exact Hother|].
    apply negb_true_iff. now apply has_id_false. }
  unfold update_user.
  rewrite (dict_get_nonempty d "name" name Hn). cbn [negb].
  rewrite Hn, He, (truthy_JStr _ Hnonempty), orb_true_r. cbn [negb].
  unfold exec_update.
  destruct (truthy (JStr name));
    cbn [app bind_all bind_param bind_result combine assign_all assign fst snd
         text_affinity];
    rewrite Hfind; cbn [row_email]; now rewrite Htaken.
Qed.

(** X15: on a table the program can be serving from, whatever its body, an
    update leaves every id, every stored password hash, the order of the
    rows and the AUTOINCREMENT counter as they were, and every row with
    another id untouched. *)
Theorem update_user_keeps_ids_and_passwords
    (user_id : Z) (data : json) (t : table) :
  reachable t ->
  map row_id (rows (snd (update_user user_id data t))) = map row_id (rows t)
  /\ map row_password (rows (snd (update_user user_id data t)))
     = map row_password (rows t)
  /\ seq (snd (update_user user_id data t)) = seq t
  /\ forall x, In x (rows t) -> row_id x <> user_id ->
               In x (rows (snd (update_user user_id data t))).
Proof.
  intros Hreach.
  destruct (update_user_inv user_id data t)
    as [->|(fields & values & _ & Hupd & _)]; [repeat split; auto|].
  destruct (exec_update_inv _ _ _ _ _ _ Hupd)
    as [(Hzero & _)|(_ & r & r' & vs & Hfind & _ & Hassign & _ & ->)];
    [discriminate|].
  destruct (rows_split user_id (rows t) r
              (ok_ids t (reachable_table_ok t Hreach)) Hfind)
    as (l1 & l2 & Hrows & Hr & Hothers).
  destruct (assign_all_keeps r _ r' Hassign) as [Hid Hpw].
  cbn [rows seq]. rewrite Hrows.
  rewrite (map_key_split user_id r' l1 r l2 Hr Hothers).
  rewrite !map_app. cbn [map]. rewrite Hid, Hpw.
  repeat split.
  intros x Hx Hne. apply in_app_iff in Hx. apply in_app_iff.
  destruct Hx as [Hx|[<-|Hx]]; [now left | | right; now right].
  apply has_id_true in Hr. contradiction.
Qed.

(** ** Validation *)

(** X16: a create is answered 400 exactly when its body is falsy (null,
    an empty object or list, 0, false, an empty string) or is an object in
    which name, email or password is missing or falsy; the table is then as
    before. *)
Theorem create_user_bad_request (salt : string) (data : json) (t : table) :
  (exists text, create_user salt data t = (Response (message text) 400, t))
  <-> (truthy data = false
       \/ exists d,
            data = JObj d
            /\ (truthy (dict_get d "name") = false
                \/ truthy (dict_get d "email") = false
                \/ truthy (dict_get d "password") = false)).
Proof.
  unfold create_user. split.
  - intros [text Hresp].
    destruct (truthy data) eqn:Hdata; [|now left]. right.
    cbn [negb] in Hresp.
    destruct data as [| | | | |d]; try discriminate.
    exists d. split; [reflexivity|].
    cbn [forallb] in Hresp.
    destruct (truthy (dict_get d "name")); [|now left].
    destruct (truthy (dict_get d "email")); [|right; now left].
    destruct (truthy (dict_get d "password")) eqn:Hp; [|right; now right].
    exfalso. cbn [andb negb] in Hresp.
    destruct (dict_get d "password"); try discriminate.
    destruct (exec_insert _ _ _ t) as [[t' new_id]|[| |]]; discriminate.
  - intros [Hdata|(d & -> & Hfield)].
    + rewrite Hdata. cbn [negb]. eexists. reflexivity.
    + destruct (truthy (JObj d)); cbn [negb]; [|eexists; reflexivity].
      cbn [forallb].
      assert (Hall : truthy (dict_get d "name")
                     && (truthy (dict_get d "email")
                         && (truthy (dict_get d "password") && true)) = false).
      { destruct Hfield as [ -> | [ -> | -> ] ]; [reflexivity | |];
          rewrite ?andb_false_r; reflexivity. }
      rewrite Hall. cbn [negb]. eexists. reflexivity.
Qed.

(** X17: an update is answered 400 exactly when its body is falsy or is an
    object in which name and email are both missing or falsy; the table is
    then as before, and the message is "Invalid JSON" or "No data provided
    for update", never "No valid fields to update". *)
Theorem update_user_bad_request (user_id : Z) (data : json) (t : table) :
  ((exists text, update_user user_id data t = (Response (message text) 400, t))
   <-> (truthy data = false
        \/ exists d,
             data = JObj d
             /\ truthy (dict_get d "name") = false
             /\ truthy (dict_get d "email") = false))
  /\ fst (update_user user_id data t)
     <> Response (message "No valid fields to update") 400.
Proof.
  unfold update_user. split; [split|].
  - intros [text Hresp].
    destruct (truthy data) eqn:Hdata; [|now left]. right.
    cbn [negb] in Hresp.
    destruct data as [| | | | |d]; try discriminate.
    exists d. split; [reflexivity|].
    destruct (truthy (dict_get d "name")) eqn:Hn,
             (truthy (dict_get d "email")) eqn:He;
      cbn [orb negb app] in Hresp; try (now split); exfalso;
      (destruct (exec_update _ _ user_id t) as [[t' rowcount]|[| |]];
       [|discriminate..];
       destruct (rowcount =? 0); [|discriminate];
       destruct (fetchone _); discriminate).
  - intros [Hdata|(d & -> & Hn & He)].
    + rewrite Hdata. cbn [negb]. eexists. reflexivity.
    + destruct (truthy (JObj d)); cbn [negb]; [|eexists; reflexivity].
      rewrite Hn, He. cbn [orb negb]. eexists. reflexivity.
  - destruct (negb (truthy data)); [discriminate|].
    destruct data as [| | | | |d]; try discriminate.
    destruct (truthy (dict_get d "name")) eqn:Hn,
             (truthy (dict_get d "email")) eqn:He;
      cbn [orb negb app]; try discriminate;
      (destruct (exec_update _ _ user_id t) as [[t' rowcount]|[| |]];
       [|discriminate..];
       destruct (rowcount =? 0); [|discriminate];
       destruct (fetchone _); discriminate).
Qed.

(** ** Search: what LIKE matches *)

Lemma fold_case_facts (c : ascii) :
  ((fold_case c =? "%") = (c =? "%"))%char
  /\ ((fold_case c =? "_") = (c =? "_"))%char
  /\ ((fold_case c =? zero) = (c =? zero))%char
  /\ fold_case (fold_case c) = fold_case c.
Proof.
  destruct c as [[] [] [] [] [] [] [] []]; repeat split; reflexivity.
Qed.

Lemma lower_append (s1 s2 : string) :
  lower (s1 ++ s2)%string = (lower s1 ++ lower s2)%string.
Proof.
  induction s1 as [|c s1 IH]; cbn; [reflexivity | now rewrite IH].
Qed.

Lemma lower_empty (s : string) : lower s = "" <-> s = "".
Proof. destruct s; cbn; split; congruence. Qed.

Lemma cstring_lower (s : string) : cstring (lower s) = lower (cstring s).
Proof.
  induction s as [|c s IH]; cbn; [reflexivity|].
  destruct (fold_case_facts c) as (_ & _ & -> & _).
  destruct (c =? zero)%char; cbn; [reflexivity | now rewrite IH].
Qed.

(** Folding the case of the pattern does not change what it matches. *)
Lemma patternCompare_lower (pattern : string) : forall s,
  patternCompare (lower pattern) s = patternCompare pattern s.
Proof.
  induction pattern as [|c pattern IH]; intros s; [reflexivity|].
  cbn [lower patternCompare].
  destruct (fold_case_facts c) as (-> & -> & _ & ->).
  destruct (c =? "%")%char.
  - induction s as [|d s IHs]; [now rewrite IH|].
    rewrite IH. f_equal. exact IHs.
  - destruct s as [|d s]; [reflexivity|]. now rewrite IH.
Qed.

Lemma patternCompare_any (pattern s : string) :
  patternCompare (String "%" pattern) s = true
  <-> exists s1 s2, s = (s1 ++ s2)%string /\ patternCompare pattern s2 = true.
Proof.
  cbn [patternCompare]. change (("%" =? "%")%char) with true. cbv iota.
  induction s as [|d s IH].
  - rewrite orb_false_r. split.
    + intros Hm. now exists "", "".
    + intros (s1 & s2 & Heq & Hm). destruct s1; [|discriminate].
      cbn in Heq. now subst s2.
  - rewrite orb_true_iff, IH. split.
    + intros [Hm|(s1 & s2 & -> & Hm)].
      * now exists "", (String d s).
      * now exists (String d s1), s2.
    + intros (s1 & s2 & Heq & Hm). destruct s1 as [|e s1].
      * cbn in Heq. subst s2. now left.
      * cbn in Heq. injection Heq as <- ->. right. now exists s1, s2.
Qed.

Lemma patternCompare_literal (text : string) : forall pattern s,
  literal text = true ->
  (patternCompare (text ++ pattern) s = true
   <-> exists s1 s2,
         s = (s1 ++ s2)%string /\ lower s1 = lower text
         /\ patternCompare pattern s2 = true).
Proof.
  induction text as [|c text IH]; intros pattern s Hlit.
  - cbn [append]. split.
    + intros Hm. now exists "", s.
    + intros (s1 & s2 & -> & Hs1 & Hm).
      apply (proj1 (lower_empty s1)) in Hs1. now subst s1.
  - cbn [literal] in Hlit. apply andb_prop in Hlit. destruct Hlit as [Hc Hlit].
    apply negb_true_iff in Hc. apply orb_false_iff in Hc.
    destruct Hc as [Hc _]. apply orb_false_iff in Hc. destruct Hc as [Hp Hu].
    cbn [append patternCompare]. rewrite Hp, Hu. cbn [orb].
    destruct s as [|d s].
    + split; [discriminate|].
      intros (s1 & s2 & Heq & Hs1 & _). destruct s1; discriminate.
    + rewrite andb_true_iff, (IH pattern s Hlit). split.
      * intros (Hcd & s1 & s2 & -> & Hs1 & Hm).
        exists (String d s1), s2. repeat split; [|exact Hm].
        cbn [lower]. apply Ascii.eqb_eq in Hcd. now rewrite Hs1, Hcd.
      * intros (s1 & s2 & Heq & Hs1 & Hm). destruct s1 as [|e s1];
          [discriminate|].
        cbn in Heq. injection Heq as <- ->. cbn [lower] in Hs1.
        injection Hs1 as Hcd Hs1. split.
        -- rewrite Hcd. apply Ascii.eqb_refl.
        -- now exists s1, s2.
Qed.

Lemma cstring_literal (text : string) :
  literal text = true -> forall rest,
  cstring (text ++ rest) = (text ++ cstring rest)%string.
Proof.
  induction text as [|c text IH]; intros Hlit rest; [reflexivity|].
  cbn [literal] in Hlit. apply andb_prop in Hlit. destruct Hlit as [Hc Hlit].
  apply negb_true_iff in Hc. apply orb_false_iff in Hc. destruct Hc as [_ Hz].
  cbn [append cstring]. rewrite Hz. now rewrite IH.
Qed.

Lemma like_substring (name text : string) :
  literal text = true ->
  (like name ("%" ++ text ++ "%") = true
   <-> exists pre mid post,
         cstring name = (pre ++ mid ++ post)%string
         /\ lower mid = lower text).
Proof.
  intros Hlit. unfold like.
  change (cstring ("%" ++ text ++ "%"))
    with (String "%" (cstring (text ++ "%"))).
  rewrite (cstring_literal text Hlit "%").
  change (cstring "%") with "%".
  rewrite patternCompare_any. split.
  - intros (pre & s2 & Heq & Hm).
    apply (patternCompare_literal text "%" s2 Hlit) in Hm.
    destruct Hm as (mid & post & -> & Hmid & _).
    now exists pre, mid, post.
  - intros (pre & mid & post & Heq & Hmid).
    exists pre, (mid ++ post)%string. split; [exact Heq|].
    apply (patternCompare_literal text "%" _ Hlit).
    exists mid, post. repeat split; [exact Hmid|].
    apply patternCompare_percent.
Qed.

Lemma utf8_length_append (s1 s2 : string) :
  utf8_length (s1 ++ s2)%string = utf8_length s1 + utf8_length s2.
Proof.
  induction s1 as [|c s1 IH]; cbn [append utf8_length]; [reflexivity|].
  rewrite IH. lia.
Qed.

Lemma fold_case_keeps_ascii (c : ascii) :
  (nat_of_ascii (fold_case c) <? 128)%nat = (nat_of_ascii c <? 128)%nat.
Proof. destruct c as [[] [] [] [] [] [] [] []]; reflexivity. Qed.

Lemma utf8_length_lower (s : string) : utf8_length (lower s) = utf8_length s.
Proof.
  induction s as [|c s IH]; cbn [lower utf8_length]; [reflexivity|].
  now rewrite fold_case_keeps_ascii, IH.
Qed.

(** X18: a search for a non-empty string without "%", "_" or NUL, short
    enough for the pattern around it to be within the engine's limit of
    50000 bytes, answers 200 with the {id, name, email} records, in table
    order, of exactly the users whose name (read up to its first NUL)
    contains the string, upper and lower case ASCII letters taken as
    equal. *)
Theorem search_users_finds_names_containing (t : table) (text : string) :
  text <> "" -> literal text = true ->
  utf8_length ("%" ++ text ++ "%") <= SQLITE_MAX_LIKE_PATTERN_LENGTH ->
  exists matches : user_row -> bool,
    search_users (Some text) t
    = Response
        (JArr (map (fun r => JObj [("id", JNum (row_id r));
                                   ("name", JStr (row_name r));
                                   ("email", JStr (row_email r))])
                   (filter matches (rows t))))
        200
    /\ forall r,
         matches r = true
         <-> exists pre mid post,
               cstring (row_name r) = (pre ++ mid ++ post)%string
               /\ lower mid = lower text.
Proof.
  intros Hne Hlit Hfits.
  exists (fun r => like (row_name r) ("%" ++ text ++ "%")). split.
  - destruct text as [|c text]; [contradiction|].
    unfold search_users. now rewrite (select_like_fits _ t Hfits).
  - intros r. now apply like_substring.
Qed.

(** X19: the search does not see the ASCII case of its query: two queries
    that differ only in the case of ASCII letters get the same answer. *)
Theorem search_users_ignores_ascii_case (t : table) (text1 text2 : string) :
  lower text1 = lower text2 ->
  search_users (Some text1) t = search_users (Some text2) t.
Proof.
  intros Hsame.
  assert (Hlike : forall text name,
             like name ("%" ++ text ++ "%")
             = patternCompare (cstring ("%" ++ lower text ++ "%")) (cstring name)).
  { intros text name. unfold like.
    rewrite <- (patternCompare_lower (cstring ("%" ++ text ++ "%"))).
    rewrite <- cstring_lower.
    change (lower ("%" ++ text ++ "%"))
      with (String (fold_case "%") (lower (text ++ "%"))).
    now rewrite lower_append. }
  assert (Hsize : forall text,
             utf8_length ("%" ++ text ++ "%") = 1 + (utf8_length (lower text) + 1)).
  { intros text. now rewrite !utf8_length_append, utf8_length_lower. }
  destruct text1 as [|c1 text1], text2 as [|c2 text2];
    try reflexivity; try discriminate.
  unfold search_users, select_like.
  destruct (rows t) as [|r rs]; [reflexivity|].
  rewrite !Hsize, Hsame.
  destruct (_ <? _); [reflexivity|].
  do 3 f_equal. apply filter_ext. intros x. now rewrite !Hlike, Hsame.
Qed.

(** ** db.py: the connection of a request *)

Lemma get_db_times_reuses (n : nat) (ctx : context) (db : connection) :
  g_db ctx = Some db -> get_db_times n ctx = (repeat db n, ctx).
Proof.
  intros Hdb. induction n as [|n IH]; [reflexivity|].
  cbn [get_db_times repeat]. unfold get_db. rewrite Hdb. now rewrite IH.
Qed.

(** X20: within one request (the application context starts without a
    connection), however often [get_db] is called, it opens one connection,
    one that was not open before, and returns that same connection every
    time; [close_db] then closes it, so that the open connections are
    those from before the request, and a second [close_db] does nothing. *)
Theorem request_uses_one_connection_and_closes_it (ctx : context) (n : nat) :
  context_ok ctx -> g_db ctx = None ->
  let dbs := fst (get_db_times (S n) ctx) in
  let ctx' := snd (get_db_times (S n) ctx) in
  dbs = repeat (next_connection ctx) (S n)
  /\ ~ In (next_connection ctx) (open_connections ctx)
  /\ open_connections ctx' = next_connection ctx :: open_connections ctx
  /\ g_db (close_db ctx') = None
  /\ open_connections (close_db ctx') = open_connections ctx
  /\ close_db (close_db ctx') = close_db ctx'.
Proof.
  intros Hok Hnone. cbv zeta.
  assert (Hfresh : ~ In (next_connection ctx) (open_connections ctx)).
  { intros Hin. unfold context_ok in Hok. rewrite Forall_forall in Hok.
    specialize (Hok _ Hin). lia. }
  assert (Hcalls : get_db_times (S n) ctx
                   = (repeat (next_connection ctx) (S n),
                      {| g_db := Some (next_connection ctx);
                         open_connections :=
                           next_connection ctx :: open_connections ctx;
                         next_connection := S (next_connection ctx) |})).
  { cbn [get_db_times]. unfold get_db. rewrite Hnone.
    now rewrite (get_db_times_reuses n _ (next_connection ctx)). }
  rewrite Hcalls. cbn [fst snd]. unfold close_db.
  cbn [g_db open_connections next_connection filter].
  rewrite Nat.eqb_refl. cbn [negb].
  assert (Hkeep : filter (fun c => negb (c =? next_connection ctx)%nat)
                    (open_connections ctx) = open_connections ctx).
  { apply filter_keep. intros c Hc. apply negb_true_iff, Nat.eqb_neq.
    intros ->. contradiction. }
  rewrite Hkeep. repeat split; assumption.
Qed.

(** ** Update with string fields, and twice *)

(** What a string field of the body makes of a stored value: an empty
    string keeps it. *)
Lemma update_user_strings user_id t r d name email :
  find (has_id user_id) (rows t) = Some r ->
  dict_get d "name" = JStr name ->
  dict_get d "email" = JStr email ->
  name <> "" \/ email <> "" ->
  update_user user_id (JObj d) t
  = let r' := mk_row (row_id r)
                (if (name =? "")%string then row_name r else name)
                (if (email =? "")%string then row_email r else email)
                (row_password r) in
    if email_taken (row_email r')
         (filter (fun x => negb (has_id user_id x)) (rows t))
    then (Response (message "User with this email already exists") 409, t)
    else (Response (message "User updated successfully") 200,
          {| rows := map (fun x => if has_id user_id x then r' else x) (rows t);
             seq := seq t |}).
Proof.
  intros Hfind Hn He Hsome. unfold update_user.
  rewrite (dict_get_nonempty d "name" name Hn). cbn [negb].
  rewrite Hn, He. cbn [truthy].
  destruct (name =? "")%string eqn:Hname, (email =? "")%string eqn:Hemail;
    cbn [negb orb app].
  - apply String.eqb_eq in Hname, Hemail. tauto.
  - unfold exec_update.
    cbn [bind_all bind_param bind_result combine assign_all assign fst snd
         text_affinity].
    rewrite Hfind. cbv zeta. cbn [row_email].
    destruct (email_taken _ _); reflexivity.
  - unfold exec_update.
    cbn [bind_all bind_param bind_result combine assign_all assign fst snd
         text_affinity].
    rewrite Hfind. cbv zeta. cbn [row_email].
    destruct (email_taken _ _); reflexivity.
  - unfold exec_update.
    cbn [bind_all bind_param bind_result combine assign_all assign fst snd
         text_affinity].
    rewrite Hfind. cbv zeta. cbn [row_email row_id row_name row_password].
    destruct (email_taken _ _); reflexivity.
Qed.

Lemma find_replaced user_id (r' : user_row) rs r :
  find (has_id user_id) rs = Some r -> has_id user_id r' = true ->
  find (has_id user_id)
       (map (fun x => if has_id user_id x then r' else x) rs) = Some r'.
Proof.
  intros Hfind Hr'. induction rs as [|y rs IH]; [discriminate|].
  cbn [map find] in *. destruct (has_id user_id y) eqn:Hy.
  - now rewrite Hr'.
  - rewrite Hy. now apply IH.
Qed.

Lemma filter_others_replaced user_id (r' : user_row) rs :
  has_id user_id r' = true ->
  filter (fun x => negb (has_id user_id x))
         (map (fun x => if has_id user_id x then r' else x) rs)
  = filter (fun x => negb (has_id user_id x)) rs.
Proof.
  intros Hr'. induction rs as [|y rs IH]; [reflexivity|].
  cbn [map filter]. destruct (has_id user_id y) eqn:Hy.
  - rewrite Hr'. cbn [negb]. exact IH.
  - rewrite Hy. cbn [negb]. now rewrite IH.
Qed.

Lemma map_replaced_twice user_id (r' : user_row) rs :
  has_id user_id r' = true ->
  map (fun x => if has_id user_id x then r' else x)
      (map (fun x => if has_id user_id x then r' else x) rs)
  = map (fun x => if has_id user_id x then r' else x) rs.
Proof.
  intros Hr'. rewrite map_map. apply map_ext. intros x.
  destruct (has_id user_id x) eqn:Hx; [now rewrite Hr' | now rewrite Hx].
Qed.

(** X21: an update is idempotent.  When an update with string name and
    email (one of them at least non-empty) of a stored user was answered
    "User updated successfully", the same update sent again is answered the
    same and leaves the table the first one left. *)
Theorem update_user_twice
    (user_id : Z) (t t1 : table) (r : user_row)
    (d : list (string * json)) (name email : string) :
  find (has_id user_id) (rows t) = Some r ->
  dict_get d "name" = JStr name ->
  dict_get d "email" = JStr email ->
  name <> "" \/ email <> "" ->
  update_user user_id (JObj d) t
  = (Response (message "User updated successfully") 200, t1) ->
  update_user user_id (JObj d) t1
  = (Response (message "User updated successfully") 200, t1).
Proof.
  intros Hfind Hn He Hsome Hfirst.
  rewrite (update_user_strings user_id t r d name email Hfind Hn He Hsome)
    in Hfirst.
  cbv zeta in Hfirst.
  set (r' := mk_row (row_id r)
               (if (name =? "")%string then row_name r else name)
               (if (email =? "")%string then row_email r else email)
               (row_password r)) in *.
  destruct (email_taken (row_email r') _) eqn:Hfree; [discriminate|].
  injection Hfirst as <-.
  assert (Hr' : has_id user_id r' = true).
  { apply find_has_id in Hfind. apply has_id_true. subst r'. cbn. tauto. }
  rewrite (update_user_strings user_id
             {| rows := map (fun x => if has_id user_id x then r' else x)
                            (rows t);
                seq := seq t |} r' d name email
             (find_replaced user_id r' (rows t) r Hfind Hr') Hn He Hsome).
  cbv zeta. cbn [rows seq].
  assert (Hsame : mk_row (row_id r')
                    (if (name =? "")%string then row_name r' else name)
                    (if (email =? "")%string then row_email r' else email)
                    (row_password r') = r').
  { subst r'. cbn [row_id row_name row_email row_password].
    destruct (name =? "")%string, (email =? "")%string; reflexivity. }
  rewrite Hsame, (filter_others_replaced user_id r' (rows t) Hr'), Hfree.
  now rewrite (map_replaced_twice user_id r' (rows t) Hr').
Qed.

(** X22: delete then login.  On a table the program can be serving from,
    once a stored user is deleted, a login with that user's email is
    answered 401 "Invalid credentials" whatever the password: no other row
    carries the email. *)
Theorem deleted_user_cannot_login
    (t : table) (r : user_row) (d : list (string * json)) (password : string) :
  reachable t -> In r (rows t) ->
  dict_get d "email" = JStr (row_email r) ->
  dict_get d "password" = JStr password -> password <> "" ->
  fst (delete_user (row_id r) t)
  = Response (message "User deleted successfully") 200
  /\ login (JObj d) (snd (delete_user (row_id r) t))
     = Response (JObj [("status", JStr "failed");
                       ("message", JStr "Invalid credentials")]) 401.
Proof.
  intros Hreach Hin He Hp Hnp.
  pose proof (reachable_table_ok t Hreach) as Hok.
  pose proof (ok_nonempty t Hok) as Hne. rewrite Forall_forall in Hne.
  destruct (rows_split (row_id r) (rows t) r (ok_ids t Hok)
              (find_In_key _ _ (ok_ids t Hok) Hin))
    as (l1 & l2 & Hrows & Hr & Hothers).
  rewrite delete_user_spec.
  replace (existsb (has_id (row_id r)) (rows t)) with true
    by (symmetry; apply existsb_has_id; now apply in_map).
  cbn [fst snd]. split; [reflexivity|].
  rewrite (login_valid_fields d (row_email r) password _ He Hp
             (proj2 (Hne r Hin)) Hnp).
  cbn [rows]. rewrite Hrows, (filter_others_split _ l1 r l2 Hr Hothers).
  rewrite find_email_absent; [reflexivity|].
  apply email_free_among_others. rewrite <- Hrows. exact (ok_emails t Hok).
Qed.

End Operations.

(** * The properties on concrete tables

    From here on the hasher is [example_hasher]. *)

#[local] Existing Instance example_hasher.

(** C3 (as stated, refuted): the seeded table after one create holds four
    rows; a second bootstrap leaves three, and the created row is gone. *)
Lemma bootstrap_discards_created_user :
  exists t',
    init_db_command "s1" "s2" "s3" (Some (Some four_users))
    = Ok (Some (Some t'))
    /\ select_count four_users = 4
    /\ select_count t' = 3
    /\ email_taken "alice@example.com" (rows four_users) = true
    /\ email_taken "alice@example.com" (rows t') = false.
Proof.
  exists (seeded "s1" "s2" "s3"). repeat split.
Qed.

(** The two failures with string fields on the seeded table: an unknown
    email, and John Doe's email with a wrong password. *)
Lemma login_failures_indistinguishable_witness :
  login (JObj [("email", JStr "nobody@example.com"); ("password", JStr "guess")])
    (seeded "s1" "s2" "s3")
  = login (JObj [("email", JStr "john@example.com"); ("password", JStr "guess")])
      (seeded "s1" "s2" "s3")
  /\ login (JObj [("email", JStr "nobody@example.com");
                  ("password", JStr "guess")])
       (seeded "s1" "s2" "s3")
     = Response (JObj [("status", JStr "failed");
                       ("message", JStr "Invalid credentials")]) 401.
Proof.
  apply (login_failures_indistinguishable
           (seeded "s1" "s2" "s3") (seeded "s1" "s2" "s3")
           [("email", JStr "nobody@example.com"); ("password", JStr "guess")]
           [("email", JStr "john@example.com"); ("password", JStr "guess")]
           "nobody@example.com" "guess" "john@example.com" "guess"
           (mk_row 1 "John Doe" "john@example.com"
              (example_hash "s1" "password123")));
    first [reflexivity | discriminate].
Defined.

(** C5 on the seeded table: a second user with John Doe's email. *)
Lemma create_duplicate_email_conflict_witness :
  create_user "s4"
    (JObj [("name", JStr "Johnny"); ("email", JStr "john@example.com");
           ("password", JStr "pw")])
    (seeded "s1" "s2" "s3")
  = (Response (message "User with this email already exists") 409,
     seeded "s1" "s2" "s3").
Proof.
  apply (create_duplicate_email_conflict "s4" (seeded "s1" "s2" "s3")
           (mk_row 1 "John Doe" "john@example.com"
              (example_hash "s1" "password123"))
           [("name", JStr "Johnny"); ("email", JStr "john@example.com");
            ("password", JStr "pw")]
           "Johnny" "pw");
    first [now left | reflexivity | discriminate].
Defined.

(** C6 on the seeded table: a fourth user. *)
Lemma create_then_get_user_witness :
  exists user_id t',
    create_user "s4"
      (JObj [("name", JStr "Alice Roe"); ("email", JStr "alice@example.com");
             ("password", JStr "hunter2")])
      (seeded "s1" "s2" "s3")
    = (Response (JObj [("message", JStr "User created successfully!");
                       ("user_id", JNum user_id)]) 201, t')
    /\ get_user user_id t'
       = Response (JObj [("id", JNum user_id); ("name", JStr "Alice Roe");
                         ("email", JStr "alice@example.com")]) 200
    /\ body_has_key "password_hash" (get_user user_id t') = false.
Proof.
  apply (create_then_get_user "s4" (seeded "s1" "s2" "s3")
           [("name", JStr "Alice Roe"); ("email", JStr "alice@example.com");
            ("password", JStr "hunter2")]
           "Alice Roe" "alice@example.com" "hunter2");
    first [reflexivity | discriminate].
Defined.

(** C7 on the seeded table. *)
Lemma list_all_in_id_order_witness :
  get_all_users (seeded "s1" "s2" "s3")
  = Response
      (JArr (map (fun r => JObj [("id", JNum (row_id r));
                                 ("name", JStr (row_name r));
                                 ("email", JStr (row_email r))])
                 (rows (seeded "s1" "s2" "s3"))))
      200
  /\ (exists ids,
        StronglySorted Z.lt ids
        /\ forall records status,
             get_all_users (seeded "s1" "s2" "s3")
             = Response (JArr records) status ->
             map (fun record => match record with
                                | JObj fields => dict_get fields "id"
                                | _ => JNull
                                end) records
             = map JNum ids)
  /\ (rows (seeded "s1" "s2" "s3") = [] ->
      get_all_users (seeded "s1" "s2" "s3") = Response (JArr []) 200).
Proof.
  apply (list_all_in_id_order (seeded "s1" "s2" "s3")).
  apply (reachable_bootstrap "s1" "s2" "s3" None
           (Some (Some (seeded "s1" "s2" "s3")))); reflexivity.
Defined.

(** C10 on the seeded table: user 2, name "" and a new email. *)
Lemma update_user_empty_string_is_absent_witness :
  let t := seeded "s1" "s2" "s3" in
  let d := [("name", JStr ""); ("email", JStr "jane.smith@example.com")] in
  update_user 2 (JObj d) t
  = (if email_taken "jane.smith@example.com"
          (filter (fun x => negb (has_id 2 x)) (rows t))
     then (Response (message "User with this email already exists") 409, t)
     else (Response (message "User updated successfully") 200,
           {| rows :=
                map (fun x =>
                       if has_id 2 x
                       then mk_row (row_id x) (row_name x)
                                   "jane.smith@example.com" (row_password x)
                       else x) (rows t);
              seq := seq t |}))
  /\ map row_name (rows (snd (update_user 2 (JObj d) t)))
     = map row_name (rows t)
  /\ (forall d0,
        dict_get d0 "name" = JStr "" -> dict_get d0 "email" = JStr "" ->
        update_user 2 (JObj d0) t
        = (Response (message "No data provided for update") 400, t)).
Proof.
  apply (update_user_empty_string_is_absent 2 (seeded "s1" "s2" "s3")
           (mk_row 2 "Jane Smith" "jane@example.com"
              (example_hash "s2" "secret456"))
           [("name", JStr ""); ("email", JStr "jane.smith@example.com")]
           "jane.smith@example.com").
  - apply (reachable_bootstrap "s1" "s2" "s3" None
             (Some (Some (seeded "s1" "s2" "s3")))); reflexivity.
  - reflexivity.
  - reflexivity.
  - reflexivity.
  - discriminate.
Defined.

(** What the handlers answer on the seeded table, evaluated. *)

Example update_user_email_only_on_seeded :
  update_user 2
    (JObj [("name", JStr ""); ("email", JStr "jane.smith@example.com")])
    (seeded "s1" "s2" "s3")
  = (Response (message "User updated successfully") 200,
     {| rows :=
          [ mk_row 1 "John Doe" "john@example.com"
              (example_hash "s1" "password123");
            mk_row 2 "Jane Smith" "jane.smith@example.com"
              (example_hash "s2" "secret456");
            mk_row 3 "Bob Johnson" "bob@example.com"
              (example_hash "s3" "qwerty789") ];
        seq := 3 |}).
Proof. reflexivity. Qed.

Example update_user_both_empty_on_seeded :
  update_user 2 (JObj [("name", JStr ""); ("email", JStr "")])
    (seeded "s1" "s2" "s3")
  = (Response (message "No data provided for update") 400,
     seeded "s1" "s2" "s3").
Proof. reflexivity. Qed.

Example update_user_absent_id_on_seeded :
  update_user 9 (JObj [("name", JStr "Nobody")]) (seeded "s1" "s2" "s3")
  = (Response (message "User not found") 404, seeded "s1" "s2" "s3").
Proof. reflexivity. Qed.

(** The login properties above are about string fields.  A password that
    is truthy but not a string passes the handler's check and makes the
    verification raise, which happens only when the email is found. *)
Example login_non_string_password_on_seeded :
  login (JObj [("email", JStr "john@example.com"); ("password", JNum 1)])
    (seeded "s1" "s2" "s3")
  = InternalServerError
  /\ login (JObj [("email", JStr "nobody@example.com"); ("password", JNum 1)])
       (seeded "s1" "s2" "s3")
     = Response (JObj [("status", JStr "failed");
                       ("message", JStr "Invalid credentials")]) 401.
Proof. split; reflexivity. Qed.

Example login_success_on_seeded :
  login (JObj [("email", JStr "john@example.com");
               ("password", JStr "password123")])
    (seeded "s1" "s2" "s3")
  = Response (JObj [("status", JStr "success"); ("user_id", JNum 1)]) 200.
Proof. reflexivity. Qed.

Example list_all_on_empty_table :
  get_all_users {| rows := []; seq := 3 |} = Response (JArr []) 200.
Proof. reflexivity. Qed.

Example ids_are_not_reused :
  fst (create_user "s5"
         (JObj [("name", JStr "Carol"); ("email", JStr "carol@example.com");
                ("password", JStr "pw")])
         (snd (delete_user 4 four_users)))
  = Response (JObj [("message", JStr "User created successfully!");
                    ("user_id", JNum 5)]) 201.
Proof. reflexivity. Qed.

Example search_reads_names_as_c_strings :
  like (String zero "abc") "%_%" = false
  /\ like "E" "%e%" = true
  /\ like "Bob Johnson" "%oh%" = true.
Proof. repeat split. Qed.

(** ** The further properties on the seeded table *)

Lemma seed_table_reachable : reachable seed_table.
Proof.
  apply (reachable_bootstrap "s1" "s2" "s3" None (Some (Some seed_table)));
    reflexivity.
Defined.

(** X1 at John Doe's row, found twice. *)
Lemma stored_users_have_distinct_ids_and_emails_witness : john = john.
Proof.
  apply (stored_users_have_distinct_ids_and_emails seed_table john john).
  - exact seed_table_reachable.
  - now left.
  - now left.
  - left. reflexivity.
Defined.

(** X2 at Jane Smith's row. *)
Lemma stored_users_have_name_email_and_positive_id_witness :
  row_name jane <> "" /\ row_email jane <> ""
  /\ 0 < row_id jane <= seq seed_table.
Proof.
  apply (stored_users_have_name_email_and_positive_id seed_table jane).
  - exact seed_table_reachable.
  - right. now left.
Defined.

(** X3: there is no user 9. *)
Lemma delete_user_absent_id_witness :
  delete_user 9 seed_table
  = (Response (message "User not found") 404, seed_table).
Proof.
  apply (delete_user_absent_id 9 seed_table).
  - split; vm_compute; discriminate.
  - cbn. intros [Heq|[Heq|[Heq|[]]]]; discriminate.
Defined.

(** X4: deleting Jane Smith. *)
Lemma delete_user_removes_that_user_only_witness :
  exists l1 l2,
    rows seed_table = l1 ++ jane :: l2
    /\ delete_user (row_id jane) seed_table
       = (Response (message "User deleted successfully") 200,
          {| rows := l1 ++ l2; seq := seq seed_table |})
    /\ get_user (row_id jane) {| rows := l1 ++ l2; seq := seq seed_table |}
       = Response (message "User not found") 404
    /\ delete_user (row_id jane) {| rows := l1 ++ l2; seq := seq seed_table |}
       = (Response (message "User not found") 404,
          {| rows := l1 ++ l2; seq := seq seed_table |}).
Proof.
  apply (delete_user_removes_that_user_only seed_table jane).
  - exact seed_table_reachable.
  - right. now left.
Defined.

(** X6: user 3 is deleted, then a user is created: it is not user 3. *)
Lemma deleted_id_is_never_reassigned_witness :
  get_user 3
    (run [CreateUser "s4" (JObj alice_body); GetAllUsers]
         (snd (delete_user 3 seed_table)))
  = Response (message "User not found") 404.
Proof.
  apply (deleted_id_is_never_reassigned seed_table 3
           [CreateUser "s4" (JObj alice_body); GetAllUsers]).
  - exact seed_table_reachable.
  - reflexivity.
Defined.

(** X7: John Doe logs in with the sample password. *)
Lemma login_succeeds_for_stored_user_witness :
  login (JObj [("email", JStr "john@example.com");
               ("password", JStr "password123")]) seed_table
  = Response (JObj [("status", JStr "success"); ("user_id", JNum 1)]) 200.
Proof.
  apply (login_succeeds_for_stored_user seed_table john
           [("email", JStr "john@example.com");
            ("password", JStr "password123")] "password123").
  - exact seed_table_reachable.
  - now left.
  - reflexivity.
  - reflexivity.
  - discriminate.
  - reflexivity.
Defined.

(** X8: Alice Roe is created and logs in. *)
Lemma create_then_login_witness :
  exists user_id t',
    create_user "s4" (JObj alice_body) seed_table
    = (Response (JObj [("message", JStr "User created successfully!");
                       ("user_id", JNum user_id)]) 201, t')
    /\ login (JObj alice_login) t'
       = Response (JObj [("status", JStr "success"); ("user_id", JNum user_id)])
                  200.
Proof.
  apply (create_then_login "s4" seed_table alice_body alice_login
           "Alice Roe" "alice@example.com" "hunter2");
    first [reflexivity | discriminate].
Defined.

(** X9: Alice Roe is created and listed last. *)
Lemma create_appends_to_listing_witness :
  exists user_id before,
    get_all_users seed_table = Response (JArr before) 200
    /\ fst (create_user "s4" (JObj alice_body) seed_table)
       = Response (JObj [("message", JStr "User created successfully!");
                         ("user_id", JNum user_id)]) 201
    /\ get_all_users (snd (create_user "s4" (JObj alice_body) seed_table))
       = Response
           (JArr (before
                  ++ [JObj [("id", JNum user_id); ("name", JStr "Alice Roe");
                            ("email", JStr "alice@example.com")]]))
           200.
Proof.
  apply (create_appends_to_listing "s4" seed_table alice_body
           "Alice Roe" "alice@example.com" "hunter2");
    first [reflexivity | discriminate].
Defined.

(** X10: Alice Roe is created and deleted. *)
Lemma create_then_delete_witness :
  exists user_id t',
    create_user "s4" (JObj alice_body) seed_table
    = (Response (JObj [("message", JStr "User created successfully!");
                       ("user_id", JNum user_id)]) 201, t')
    /\ delete_user user_id t'
       = (Response (message "User deleted successfully") 200,
          {| rows := rows seed_table; seq := user_id |}).
Proof.
  apply (create_then_delete "s4" seed_table alice_body
           "Alice Roe" "alice@example.com" "hunter2");
    first [reflexivity | discriminate].
Defined.

(** X11 on the seeded table. *)
Lemma get_user_finds_the_row_of_the_id_witness :
  (forall r, In r (rows seed_table) ->
             get_user (row_id r) seed_table
             = Response (JObj [("id", JNum (row_id r));
                               ("name", JStr (row_name r));
                               ("email", JStr (row_email r))]) 200)
  /\ (forall user_id, fits_int64 user_id ->
                      ~ In user_id (map row_id (rows seed_table)) ->
                      get_user user_id seed_table
                      = Response (message "User not found") 404).
Proof.
  apply (get_user_finds_the_row_of_the_id seed_table).
  exact seed_table_reachable.
Defined.

(** X13: Jane Smith becomes Jane Doe. *)
Lemma update_user_name_only_witness :
  exists l1 l2,
    rows seed_table = l1 ++ jane :: l2
    /\ update_user (row_id jane) (JObj [("name", JStr "Jane Doe")]) seed_table
       = (Response (message "User updated successfully") 200,
          {| rows := l1 ++ mk_row (row_id jane) "Jane Doe" (row_email jane)
                               (row_password jane) :: l2;
             seq := seq seed_table |}).
Proof.
  apply (update_user_name_only seed_table jane [("name", JStr "Jane Doe")]
           "Jane Doe").
  - exact seed_table_reachable.
  - right. now left.
  - reflexivity.
  - discriminate.
  - reflexivity.
Defined.

(** X14: Jane Smith asks for John Doe's email. *)
Lemma update_user_conflict_changes_nothing_witness :
  update_user 2
    (JObj [("name", JStr "Jane Doe"); ("email", JStr (row_email john))])
    seed_table
  = (Response (message "User with this email already exists") 409, seed_table).
Proof.
  apply (update_user_conflict_changes_nothing 2 seed_table jane john
           [("name", JStr "Jane Doe"); ("email", JStr (row_email john))]
           "Jane Doe").
  - reflexivity.
  - now left.
  - discriminate.
  - reflexivity.
  - reflexivity.
  - discriminate.
Defined.

(** X15: an update of user 2 on the seeded table. *)
Lemma update_user_keeps_ids_and_passwords_witness :
  let t' := snd (update_user 2 (JObj [("name", JStr "Jane Doe")]) seed_table) in
  map row_id (rows t') = map row_id (rows seed_table)
  /\ map row_password (rows t') = map row_password (rows seed_table)
  /\ seq t' = seq seed_table
  /\ forall x, In x (rows seed_table) -> row_id x <> 2 -> In x (rows t').
Proof.
  apply (update_user_keeps_ids_and_passwords 2
           (JObj [("name", JStr "Jane Doe")]) seed_table).
  exact seed_table_reachable.
Defined.

(** X18: the search for "oh". *)
Lemma search_users_finds_names_containing_witness :
  exists matches : user_row -> bool,
    search_users (Some "oh") seed_table
    = Response
        (JArr (map (fun r => JObj [("id", JNum (row_id r));
                                   ("name", JStr (row_name r));
                                   ("email", JStr (row_email r))])
                   (filter matches (rows seed_table))))
        200
    /\ forall r,
         matches r = true
         <-> exists pre mid post,
               cstring (row_name r) = (pre ++ mid ++ post)%string
               /\ lower mid = lower "oh".
Proof.
  apply (search_users_finds_names_containing seed_table "oh").
  - discriminate.
  - reflexivity.
  - vm_compute. discriminate.
Defined.

(** X19: "OH" and "oh". *)
Lemma search_users_ignores_ascii_case_witness :
  search_users (Some "OH") seed_table = search_users (Some "oh") seed_table.
Proof.
  apply (search_users_ignores_ascii_case seed_table "OH" "oh"). reflexivity.
Defined.

(** X20: three calls of [get_db] in a fresh context. *)
Lemma request_uses_one_connection_and_closes_it_witness :
  let ctx := {| g_db := None; open_connections := [];
                next_connection := O |} in
  let dbs := fst (get_db_times 3 ctx) in
  let ctx' := snd (get_db_times 3 ctx) in
  dbs = repeat (next_connection ctx) 3
  /\ ~ In (next_connection ctx) (open_connections ctx)
  /\ open_connections ctx' = next_connection ctx :: open_connections ctx
  /\ g_db (close_db ctx') = None
  /\ open_connections (close_db ctx') = open_connections ctx
  /\ close_db (close_db ctx') = close_db ctx'.
Proof.
  apply (request_uses_one_connection_and_closes_it
           {| g_db := None; open_connections := []; next_connection := O |} 2).
  - constructor.
  - reflexivity.
Defined.

(** X21: Jane Smith's email is changed, twice. *)
Lemma update_user_twice_witness :
  update_user 2
    (JObj [("name", JStr ""); ("email", JStr "jane.smith@example.com")])
    (snd (update_user 2
            (JObj [("name", JStr ""); ("email", JStr "jane.smith@example.com")])
            seed_table))
  = (Response (message "User updated successfully") 200,
     snd (update_user 2
            (JObj [("name", JStr ""); ("email", JStr "jane.smith@example.com")])
            seed_table)).
Proof.
  apply (update_user_twice 2 seed_table _ jane
           [("name", JStr ""); ("email", JStr "jane.smith@example.com")]
           "" "jane.smith@example.com").
  - reflexivity.
  - reflexivity.
  - reflexivity.
  - right. discriminate.
  - reflexivity.
Defined.

(** X22: John Doe is deleted and tries to log in. *)
Lemma deleted_user_cannot_login_witness :
  fst (delete_user (row_id john) seed_table)
  = Response (message "User deleted successfully") 200
  /\ login (JObj [("email", JStr "john@example.com");
                  ("password", JStr "password123")])
       (snd (delete_user (row_id john) seed_table))
     = Response (JObj [("status", JStr "failed");
                       ("message", JStr "Invalid credentials")]) 401.
Proof.
  apply (deleted_user_cannot_login seed_table john
           [("email", JStr "john@example.com");
            ("password", JStr "password123")] "password123").
  - exact seed_table_reachable.
  - now left.
  - reflexivity.
  - reflexivity.
  - discriminate.
Defined.
